(** * lavaMase filters: a shallow embedding of [lavaMase/filters.py]

    The nine filter classes ([Equalizer], [Karaoke], [Timescale], [Tremolo],
    [Vibrato], [Rotation], [Distortion], [ChannelMix], [LowPass]) and the
    [Filters] aggregate are embedded as pure functions over records.  A Python
    object is represented by the value of its [_payload] attribute, a method
    that mutates [self] returns the new object.

    Python dictionaries keep insertion order, and the order is visible in the
    payload that [Filters.__call__] returns, so a [dict] is an association list
    with the semantics of the Python operations ([d[k] = v] overwrites in place
    or appends, [del d[k]] removes).  Python floats are the kernel's binary64
    floats; [None] is the [None] of an [option]. *)

From Stdlib Require Import ZArith List String Bool Lia Permutation.
From Stdlib Require Import Floats.PrimFloat.
Import ListNotations.

Local Open Scope string_scope.
Local Open Scope list_scope.
Local Open Scope Z_scope.

(** ** Python dictionaries *)

(** Keys of a dictionary are compared with [==]. *)
Class KeyEq (K : Type) := {
  key_eqb : K -> K -> bool;
  key_eqb_spec : forall a b : K, reflect (a = b) (key_eqb a b)
}.

#[export] Instance KeyEq_string : KeyEq string :=
  {| key_eqb := String.eqb; key_eqb_spec := String.eqb_spec |}.

#[export] Instance KeyEq_Z : KeyEq Z :=
  {| key_eqb := Z.eqb; key_eqb_spec := Z.eqb_spec |}.

Section Dict.
Context {K V : Type} `{KeyEq K}.

Definition dict : Type := list (K * V).

Definition dict_keys (d : dict) : list K := map fst d.

(** [list(d.values())] *)
Definition dict_values (d : dict) : list V := map snd d.

(** [k in d] / [d[k]]: [None] when the key is absent. *)
Fixpoint dict_get (k : K) (d : dict) : option V :=
  match d with
  | [] => None
  | (k', v) :: d' => if key_eqb k k' then Some v else dict_get k d'
  end.

(** [d.get(k, dflt)] *)
Definition dict_get_default (k : K) (d : dict) (dflt : V) : V :=
  match dict_get k d with
  | Some v => v
  | None => dflt
  end.

(** [d[k] = v]: an existing key keeps its position, a new key goes last. *)
Fixpoint dict_set (k : K) (v : V) (d : dict) : dict :=
  match d with
  | [] => [(k, v)]
  | (k', v') :: d' =>
      if key_eqb k k' then (k, v) :: d' else (k', v') :: dict_set k v d'
  end.

(** [del d[k]].  The only use in the source deletes keys read from a copy of
    the same dictionary, so the key is always there. *)
Fixpoint dict_del (k : K) (d : dict) : dict :=
  match d with
  | [] => []
  | (k', v') :: d' =>
      if key_eqb k k' then d' else (k', v') :: dict_del k d'
  end.

(** [d.update(other)] *)
Definition dict_update (d other : dict) : dict :=
  fold_left (fun acc kv => dict_set (fst kv) (snd kv) acc) other d.
End Dict.

Arguments dict : clear implicits.

(** ** Values *)

(** [float | None], the type of every field of the eight plain filters. *)
Definition optfloat : Type := option float.

(** A Python float is false exactly when it compares equal to zero. *)
Definition float_truthy (x : float) : bool := negb (PrimFloat.eqb x 0%float).

(** [types.filters.Equalizer]: [{"band": int, "gain": float}]. *)
Record EqualizerPayload : Type := mkBand { band : Z; gain : float }.

(** The payload of a plain filter, keyed by the wire names. *)
Definition UnitPayload : Type := dict string optfloat.

(** Keyword arguments of a plain filter's [set]. *)
Definition UnitOptions : Type := dict string optfloat.

(** [range(n)] *)
Definition range (n : nat) : list Z := map Z.of_nat (seq 0 n).

(** ** Equalizer *)

Module Equalizer.

Definition table : Type := dict Z EqualizerPayload.

Record t : Type := mk { _payload : table }.

(** [{n: {"band": n, "gain": 0.0} for n in range(15)}] *)
Definition default : table :=
  map (fun n => (n, {| band := n; gain := 0%float |})) (range 15).

(** One turn of the loop of [_set]. *)
Definition _set_step (acc : table) (eq : EqualizerPayload) : table :=
  let band := band eq in
  if (band >? 14) || (band <? 0) then acc else dict_set band eq acc.

Definition _set (payload : list EqualizerPayload) : table :=
  fold_left _set_step payload default.

(** [Equalizer(payload)]; [payload and len(payload) == 15]. *)
Definition init (payload : option (list EqualizerPayload)) : t :=
  match payload with
  | Some l =>
      if negb (Nat.eqb (List.length l) 0) && Nat.eqb (List.length l) 15
      then mk (_set l)
      else mk default
  | None => mk default
  end.

(** Keyword arguments of [set]: [bands: list | None]. *)
Definition EqualizerOptions : Type :=
  dict string (option (list EqualizerPayload)).

Definition set (self : t) (options : EqualizerOptions) : t :=
  match dict_get_default "bands" options None with
  | None => mk default
  | Some payload => mk (_set payload)
  end.

Definition reset (self : t) : t := mk default.

Definition payload (self : t) : table := _payload self.

End Equalizer.

(** ** The eight plain filters *)

Module Karaoke.
Record t : Type := mk { _payload : UnitPayload }.

Definition set (self : t) (options : UnitOptions) : t :=
  mk [ ("level",
         dict_get_default "level" options
           (dict_get_default "level" (_payload self) None));
       ("monoLevel",
         dict_get_default "mono_level" options
           (dict_get_default "monoLevel" (_payload self) None));
       ("filterBand",
         dict_get_default "filter_band" options
           (dict_get_default "filterBand" (_payload self) None));
       ("filterWidth",
         dict_get_default "filter_width" options
           (dict_get_default "filterWidth" (_payload self) None)) ].

Definition reset (self : t) : t := mk [].
Definition payload (self : t) : UnitPayload := _payload self.
End Karaoke.

Module Timescale.
Record t : Type := mk { _payload : UnitPayload }.

Definition set (self : t) (options : UnitOptions) : t :=
  mk (dict_update (_payload self) options).

Definition reset (self : t) : t := mk [].
Definition payload (self : t) : UnitPayload := _payload self.
End Timescale.

Module Tremolo.
Record t : Type := mk { _payload : UnitPayload }.

Definition set (self : t) (options : UnitOptions) : t :=
  mk (dict_update (_payload self) options).

Definition reset (self : t) : t := mk [].
Definition payload (self : t) : UnitPayload := _payload self.
End Tremolo.

Module Vibrato.
Record t : Type := mk { _payload : UnitPayload }.

Definition set (self : t) (options : UnitOptions) : t :=
  mk (dict_update (_payload self) options).

Definition reset (self : t) : t := mk [].
Definition payload (self : t) : UnitPayload := _payload self.
End Vibrato.

Module Rotation.
Record t : Type := mk { _payload : UnitPayload }.

Definition set (self : t) (options : UnitOptions) : t :=
  mk [ ("rotationHz",
         dict_get_default "rotation_hz" options
           (dict_get_default "rotationHz" (_payload self) None)) ].

Definition reset (self : t) : t := mk [].
Definition payload (self : t) : UnitPayload := _payload self.
End Rotation.

Module Distortion.
Record t : Type := mk { _payload : UnitPayload }.

Definition set (self : t) (options : UnitOptions) : t :=
  mk [ ("sinOffset",
         dict_get_default "sin_offset" options
           (dict_get_default "sinOffset" (_payload self) None));
       ("sinScale",
         dict_get_default "sin_scale" options
           (dict_get_default "sinScale" (_payload self) None));
       ("cosOffset",
         dict_get_default "cos_offset" options
           (dict_get_default "cosOffset" (_payload self) None));
       ("cosScale",
         dict_get_default "cos_scale" options
           (dict_get_default "cosScale" (_payload self) None));
       ("tanOffset",
         dict_get_default "tan_offset" options
           (dict_get_default "tanOffset" (_payload self) None));
       ("tanScale",
         dict_get_default "tan_scale" options
           (dict_get_default "tanScale" (_payload self) None));
       ("offset",
         dict_get_default "offset" options
           (dict_get_default "offset" (_payload self) None));
       ("scale",
         dict_get_default "scale" options
           (dict_get_default "scale" (_payload self) None)) ].

Definition reset (self : t) : t := mk [].
Definition payload (self : t) : UnitPayload := _payload self.
End Distortion.

Module ChannelMix.
Record t : Type := mk { _payload : UnitPayload }.

Definition set (self : t) (options : UnitOptions) : t :=
  mk [ ("leftToLeft",
         dict_get_default "left_to_left" options
           (dict_get_default "leftToLeft" (_payload self) None));
       ("leftToRight",
         dict_get_default "left_to_right" options
           (dict_get_default "leftToRight" (_payload self) None));
       ("rightToLeft",
         dict_get_default "right_to_left" options
           (dict_get_default "rightToLeft" (_payload self) None));
       ("rightToRight",
         dict_get_default "right_to_right" options
           (dict_get_default "rightToRight" (_payload self) None)) ].

Definition reset (self : t) : t := mk [].
Definition payload (self : t) : UnitPayload := _payload self.
End ChannelMix.

Module LowPass.
Record t : Type := mk { _payload : UnitPayload }.

Definition set (self : t) (options : UnitOptions) : t :=
  mk (dict_update (_payload self) options).

Definition reset (self : t) : t := mk [].
Definition payload (self : t) : UnitPayload := _payload self.
End LowPass.

(** ** The Filters aggregate *)

(** The typed boundary.  [FilterPayload] and [FiltersOptions] are [TypedDict]s:
    string keys, and values of the few types below.  Reading a key into a typed
    attribute yields [None] when the value found there is of another type,
    which the annotations of the source rule out. *)
Definition obind {A B : Type} (m : option A) (k : A -> option B) : option B :=
  match m with
  | Some a => k a
  | None => None
  end.

Notation "'let?' x ':=' m 'in' k" :=
  (obind m (fun x => k))
  (at level 10, x name, m at level 100, k at level 200).

(** A value of the wire payload. *)
Inductive wire : Type :=
| WNone
| WFloat (x : float)
| WBands (l : list EqualizerPayload)
| WUnit (d : UnitPayload).

Definition FilterPayload : Type := dict string wire.

(** Python's truth value, as [if not value] tests it. *)
Definition truthy (v : wire) : bool :=
  match v with
  | WNone => false
  | WFloat x => float_truthy x
  | WBands l => negb (Nat.eqb (List.length l) 0)
  | WUnit d => negb (Nat.eqb (List.length d) 0)
  end.

Definition wire_of_volume (v : optfloat) : wire :=
  match v with
  | Some x => WFloat x
  | None => WNone
  end.

(** [data.get(key)] read as [float | None]. *)
Definition get_volume (key : string) (data : FilterPayload) : option optfloat :=
  match dict_get key data with
  | None | Some WNone => Some None
  | Some (WFloat x) => Some (Some x)
  | Some _ => None
  end.

(** [data.get(key, None)] read as [list[EqualizerPayload] | None]. *)
Definition get_bands (key : string) (data : FilterPayload)
  : option (option (list EqualizerPayload)) :=
  match dict_get key data with
  | None | Some WNone => Some None
  | Some (WBands l) => Some (Some l)
  | Some _ => None
  end.

(** [data.get(key, {})] read as the payload of a plain filter. *)
Definition get_unit (key : string) (data : FilterPayload) : option UnitPayload :=
  match dict_get key data with
  | None => Some []
  | Some (WUnit d) => Some d
  | Some _ => None
  end.

(** A value of the keyword arguments of [set_filters]. *)
Inductive optval : Type :=
| ONone
| OBool (b : bool)
| OFloat (x : float)
| OEqualizer (e : Equalizer.t)
| OKaraoke (k : Karaoke.t)
| OTimescale (s : Timescale.t)
| OTremolo (r : Tremolo.t)
| OVibrato (v : Vibrato.t)
| ORotation (r : Rotation.t)
| ODistortion (d : Distortion.t)
| OChannelMix (c : ChannelMix.t)
| OLowPass (l : LowPass.t).

Definition FiltersOptions : Type := dict string optval.

(** [filters.get(key, dflt)] read at type [A] through [proj]. *)
Definition kwget {A : Type} (proj : optval -> option A)
    (key : string) (filters : FiltersOptions) (dflt : A) : option A :=
  match dict_get key filters with
  | None => Some dflt
  | Some v => proj v
  end.

Definition as_bool (v : optval) : option bool :=
  match v with OBool b => Some b | _ => None end.
Definition as_volume (v : optval) : option optfloat :=
  match v with ONone => Some None | OFloat x => Some (Some x) | _ => None end.
Definition as_equalizer (v : optval) : option Equalizer.t :=
  match v with OEqualizer e => Some e | _ => None end.
Definition as_karaoke (v : optval) : option Karaoke.t :=
  match v with OKaraoke e => Some e | _ => None end.
Definition as_timescale (v : optval) : option Timescale.t :=
  match v with OTimescale e => Some e | _ => None end.
Definition as_tremolo (v : optval) : option Tremolo.t :=
  match v with OTremolo e => Some e | _ => None end.
Definition as_vibrato (v : optval) : option Vibrato.t :=
  match v with OVibrato e => Some e | _ => None end.
Definition as_rotation (v : optval) : option Rotation.t :=
  match v with ORotation e => Some e | _ => None end.
Definition as_distortion (v : optval) : option Distortion.t :=
  match v with ODistortion e => Some e | _ => None end.
Definition as_channel_mix (v : optval) : option ChannelMix.t :=
  match v with OChannelMix e => Some e | _ => None end.
Definition as_low_pass (v : optval) : option LowPass.t :=
  match v with OLowPass e => Some e | _ => None end.

Module Filters.

Record t : Type := mk {
  _volume : optfloat;
  _equalizer : Equalizer.t;
  _karaoke : Karaoke.t;
  _timescale : Timescale.t;
  _tremolo : Tremolo.t;
  _vibrato : Vibrato.t;
  _rotation : Rotation.t;
  _distortion : Distortion.t;
  _channel_mix : ChannelMix.t;
  _low_pass : LowPass.t
}.

(** The ten assignments at the head of [__init__]: a fresh aggregate. *)
Definition default : t :=
  mk None (Equalizer.init None) (Karaoke.mk []) (Timescale.mk [])
     (Tremolo.mk []) (Vibrato.mk []) (Rotation.mk []) (Distortion.mk [])
     (ChannelMix.mk []) (LowPass.mk []).

(** Every attribute is assigned, so nothing of [self] survives. *)
Definition _create_from (self : t) (data : FilterPayload) : option t :=
  let? volume := get_volume "volume" data in
  let? equalizer := get_bands "equalizer" data in
  let? karaoke := get_unit "karaoke" data in
  let? timescale := get_unit "timescale" data in
  let? tremolo := get_unit "tremolo" data in
  let? vibrato := get_unit "vibrato" data in
  let? rotation := get_unit "rotation" data in
  let? distortion := get_unit "distortion" data in
  let? channel_mix := get_unit "channelMix" data in
  let? low_pass := get_unit "lowPass" data in
  Some (mk volume (Equalizer.init equalizer) (Karaoke.mk karaoke)
           (Timescale.mk timescale) (Tremolo.mk tremolo) (Vibrato.mk vibrato)
           (Rotation.mk rotation) (Distortion.mk distortion)
           (ChannelMix.mk channel_mix) (LowPass.mk low_pass)).

(** [Filters(data=data)]; [if data:] is false for [None] and for [{}]. *)
Definition init (data : option FilterPayload) : option t :=
  match data with
  | Some d =>
      if negb (Nat.eqb (List.length d) 0) then _create_from default d
      else Some default
  | None => Some default
  end.

Definition _set_with_reset (self : t) (filters : FiltersOptions) : option t :=
  let? volume := kwget as_volume "volume" filters None in
  let? equalizer := kwget as_equalizer "equalizer" filters (Equalizer.init None) in
  let? karaoke := kwget as_karaoke "karaoke" filters (Karaoke.mk []) in
  let? timescale := kwget as_timescale "timescale" filters (Timescale.mk []) in
  let? tremolo := kwget as_tremolo "tremolo" filters (Tremolo.mk []) in
  let? vibrato := kwget as_vibrato "vibrato" filters (Vibrato.mk []) in
  let? rotation := kwget as_rotation "rotation" filters (Rotation.mk []) in
  let? distortion := kwget as_distortion "distortion" filters (Distortion.mk []) in
  let? channel_mix := kwget as_channel_mix "channel_mix" filters (ChannelMix.mk []) in
  let? low_pass := kwget as_low_pass "low_pass" filters (LowPass.mk []) in
  Some (mk volume equalizer karaoke timescale tremolo vibrato rotation
           distortion channel_mix low_pass).

Definition set_filters (self : t) (filters : FiltersOptions) : option t :=
  let? reset := kwget as_bool "reset" filters false in
  if reset : bool then _set_with_reset self filters
  else
    let? volume := kwget as_volume "volume" filters (_volume self) in
    let? equalizer := kwget as_equalizer "equalizer" filters (_equalizer self) in
    let? karaoke := kwget as_karaoke "karaoke" filters (_karaoke self) in
    let? timescale := kwget as_timescale "timescale" filters (_timescale self) in
    let? tremolo := kwget as_tremolo "tremolo" filters (_tremolo self) in
    let? vibrato := kwget as_vibrato "vibrato" filters (_vibrato self) in
    let? rotation := kwget as_rotation "rotation" filters (_rotation self) in
    let? distortion := kwget as_distortion "distortion" filters (_distortion self) in
    let? channel_mix := kwget as_channel_mix "channelMix" filters (_channel_mix self) in
    let? low_pass := kwget as_low_pass "lowPass" filters (_low_pass self) in
    Some (mk volume equalizer karaoke timescale tremolo vibrato rotation
             distortion channel_mix low_pass).

Definition _reset (self : t) : t :=
  mk None (Equalizer.init None) (Karaoke.mk []) (Timescale.mk [])
     (Tremolo.mk []) (Vibrato.mk []) (Rotation.mk []) (Distortion.mk [])
     (ChannelMix.mk []) (LowPass.mk []).

Definition reset (self : t) : t := _reset self.

(** The class method [from_filters]: a fresh object, then [_set_with_reset]. *)
Definition from_filters (filters : FiltersOptions) : option t :=
  _set_with_reset default filters.

(** The [volume] setter. *)
Definition set_volume (self : t) (value : float) : t :=
  mk (Some value) (_equalizer self) (_karaoke self) (_timescale self)
     (_tremolo self) (_vibrato self) (_rotation self) (_distortion self)
     (_channel_mix self) (_low_pass self).

(** The dictionary literal at the head of [__call__]. *)
Definition full_payload (self : t) : FilterPayload :=
  [ ("volume", wire_of_volume (_volume self));
    ("equalizer", WBands (dict_values (Equalizer._payload (_equalizer self))));
    ("karaoke", WUnit (Karaoke._payload (_karaoke self)));
    ("timescale", WUnit (Timescale._payload (_timescale self)));
    ("tremolo", WUnit (Tremolo._payload (_tremolo self)));
    ("vibrato", WUnit (Vibrato._payload (_vibrato self)));
    ("rotation", WUnit (Rotation._payload (_rotation self)));
    ("distortion", WUnit (Distortion._payload (_distortion self)));
    ("channelMix", WUnit (ChannelMix._payload (_channel_mix self)));
    ("lowPass", WUnit (LowPass._payload (_low_pass self))) ].

(** [for key, value in payload.copy().items(): if not value: del payload[key]] *)
Definition compact (payload : FilterPayload) : FilterPayload :=
  fold_left
    (fun acc kv => if truthy (snd kv) then acc else dict_del (fst kv) acc)
    payload payload.

Definition __call__ (self : t) : FilterPayload :=
  compact (full_payload self).

End Filters.

(** ** Notions used by the statements *)

(** The test of [_set] on a band index, read positively. *)
Definition in_range (eq : EqualizerPayload) : bool :=
  (0 <=? band eq) && (band eq <=? 14).

(** The entry of [payload] that the loop of [_set] leaves in slot [b]: the one
    met last among those with that band. *)
Definition last_with_band (b : Z) (payload : list EqualizerPayload)
  : option EqualizerPayload :=
  find (fun eq => band eq =? b) (rev payload).

(** The shape of the band table: the keys [0..14] in order, and in every slot
    an entry that carries the band of the slot. *)
Definition table_ok (tb : Equalizer.table) : Prop :=
  dict_keys tb = range 15 /\ Forall (fun kv => band (snd kv) = fst kv) tb.

(** What [d.get(k)] gives for a mapping of optional floats. *)
Definition get_or_none (k : string) (d : UnitPayload) : optfloat :=
  dict_get_default k d None.

(** The value a rebuilding [set] stores under [wire] when the keyword
    argument is called [caller]. *)
Definition merged (options : UnitOptions) (prior : UnitPayload)
    (caller wire : string) : optfloat :=
  match dict_get caller options with
  | Some v => v
  | None => get_or_none wire prior
  end.

(** A volume as it comes back from a payload: a zero volume is not sent. *)
Definition sent_volume (v : optfloat) : optfloat :=
  match v with
  | Some x => if float_truthy x then Some x else None
  | None => None
  end.

(** The ten keys of the wire payload, in the order of the literal of
    [__call__]; they are also the keys that [_create_from] reads. *)
Definition payload_keys : list string :=
  [ "volume"; "equalizer"; "karaoke"; "timescale"; "tremolo"; "vibrato";
    "rotation"; "distortion"; "channelMix"; "lowPass" ].

(** The keys that [set_filters] reads when [reset] is false. *)
Definition set_filters_keys : list string :=
  [ "reset"; "volume"; "equalizer"; "karaoke"; "timescale"; "tremolo";
    "vibrato"; "rotation"; "distortion"; "channelMix"; "lowPass" ].

(** * Properties *)

(** ** Dictionaries *)

Section DictFacts.
Context {K V : Type} `{KeyEq K}.
Implicit Types (k : K) (v : V) (d : dict K V).

Lemma key_eqb_refl k : key_eqb k k = true.
Proof. destruct (key_eqb_spec k k); congruence. Qed.

Lemma key_eqb_neq k k' : k <> k' -> key_eqb k k' = false.
Proof. intros Hne. destruct (key_eqb_spec k k'); congruence. Qed.

Lemma dict_get_set_same k v d : dict_get k (dict_set k v d) = Some v.
Proof.
  induction d as [|[k' v'] d IH]; simpl.
  - now rewrite key_eqb_refl.
  - destruct (key_eqb_spec k k') as [->|Hne]; simpl.
    + now rewrite key_eqb_refl.
    + now rewrite (key_eqb_neq _ _ Hne).
Qed.

Lemma dict_get_set_other k k' v d :
  k <> k' -> dict_get k' (dict_set k v d) = dict_get k' d.
Proof.
  intros Hne. induction d as [|[k0 v0] d IH]; simpl.
  - rewrite key_eqb_neq; congruence.
  - destruct (key_eqb_spec k k0) as [->|Hk]; simpl.
    + rewrite !key_eqb_neq; congruence.
    + now rewrite IH.
Qed.

Lemma dict_get_notin k d : ~ In k (dict_keys d) -> dict_get k d = None.
Proof.
  induction d as [|[k' v'] d IH]; simpl; intros Hnot; [reflexivity|].
  rewrite key_eqb_neq by (intros ->; auto). apply IH. auto.
Qed.

Lemma dict_get_in k d : In k (dict_keys d) -> exists v, dict_get k d = Some v.
Proof.
  induction d as [|[k' v'] d IH]; simpl; intros Hin; [contradiction|].
  destruct (key_eqb_spec k k') as [->|Hne]; [now exists v'|].
  apply IH. destruct Hin; congruence.
Qed.

(** Assigning to a key that is there leaves the order of the keys alone. *)
Lemma dict_keys_set_in k v d :
  In k (dict_keys d) -> dict_keys (dict_set k v d) = dict_keys d.
Proof.
  induction d as [|[k' v'] d IH]; simpl; intros Hin; [contradiction|].
  destruct (key_eqb_spec k k') as [->|Hne]; simpl; [reflexivity|].
  f_equal. apply IH. destruct Hin; congruence.
Qed.

Lemma dict_set_middle k v v0 (pre rest : dict K V) :
  ~ In k (dict_keys pre) ->
  dict_set k v (pre ++ (k, v0) :: rest) = pre ++ (k, v) :: rest.
Proof.
  induction pre as [|[k' v'] pre IH]; simpl; intros Hnot.
  - now rewrite key_eqb_refl.
  - rewrite key_eqb_neq by (intros ->; auto). f_equal. apply IH. auto.
Qed.

Lemma dict_del_middle k v0 (pre rest : dict K V) :
  ~ In k (dict_keys pre) ->
  dict_del k (pre ++ (k, v0) :: rest) = pre ++ rest.
Proof.
  induction pre as [|[k' v'] pre IH]; simpl; intros Hnot.
  - now rewrite key_eqb_refl.
  - rewrite key_eqb_neq by (intros ->; auto). f_equal. apply IH. auto.
Qed.

(** [update] with keyword arguments: a supplied key takes the supplied
    value, any other key is looked up as before. *)
Lemma dict_get_update k (d other : dict K V) :
  NoDup (dict_keys other) ->
  dict_get k (dict_update d other) =
    match dict_get k other with
    | Some v => Some v
    | None => dict_get k d
    end.
Proof.
  unfold dict_update. revert d.
  induction other as [|[k0 v0] other IH]; simpl; intros d Hnd; [reflexivity|].
  inversion Hnd as [|? ? Hnot Hnd']; subst.
  rewrite (IH _ Hnd').
  destruct (key_eqb_spec k k0) as [->|Hne].
  - now rewrite (dict_get_notin _ _ Hnot), dict_get_set_same.
  - rewrite dict_get_set_other by congruence. reflexivity.
Qed.

(** Deleting, one by one, the entries that fail a test is a filter. *)
Lemma fold_del_filter (keep : V -> bool) (items pre : dict K V) :
  NoDup (dict_keys items) ->
  (forall k, In k (dict_keys items) -> ~ In k (dict_keys pre)) ->
  fold_left
    (fun acc kv => if keep (snd kv) then acc else dict_del (fst kv) acc)
    items (pre ++ items)
  = pre ++ filter (fun kv => keep (snd kv)) items.
Proof.
  revert pre.
  induction items as [|[k v] items IH]; simpl; intros pre Hnd Hdisj.
  - reflexivity.
  - inversion Hnd as [|? ? Hnot Hnd']; subst.
    destruct (keep v).
    + change (pre ++ (k, v) :: items) with (pre ++ [(k, v)] ++ items).
      rewrite app_assoc, IH; [now rewrite <- app_assoc|assumption|].
      intros k' Hin. unfold dict_keys. rewrite map_app, in_app_iff. simpl.
      intros [Hpre|[->|[]]]; [|contradiction].
      apply (Hdisj k'); auto.
    + rewrite dict_del_middle by (apply Hdisj; now left).
      apply IH; [assumption|]. intros k' Hin. apply Hdisj. now right.
Qed.

Lemma dict_get_filter (keep : V -> bool) k d :
  NoDup (dict_keys d) ->
  dict_get k (filter (fun kv => keep (snd kv)) d) =
    match dict_get k d with
    | Some v => if keep v then Some v else None
    | None => None
    end.
Proof.
  induction d as [|[k' v'] d IH]; simpl; intros Hnd; [reflexivity|].
  inversion Hnd as [|? ? Hnot Hnd']; subst.
  destruct (key_eqb_spec k k') as [->|Hne].
  - destruct (keep v'); simpl.
    + now rewrite key_eqb_refl.
    + rewrite (IH Hnd'), dict_get_notin by assumption. reflexivity.
  - destruct (keep v'); simpl; [rewrite key_eqb_neq by assumption|]; auto.
Qed.
End DictFacts.

(** ** The band table *)

Lemma in_range15 (k : Z) : In k (range 15) <-> 0 <= k <= 14.
Proof.
  unfold range. rewrite in_map_iff. split.
  - intros (n & <- & Hin). apply in_seq in Hin. lia.
  - intros Hk. exists (Z.to_nat k). split; [lia|]. apply in_seq. lia.
Qed.

Lemma NoDup_range15 : NoDup (range 15).
Proof.
  unfold range. apply NoDup_map_NoDup_ForallPairs.
  - intros a b _ _. apply Nat2Z.inj.
  - apply seq_NoDup.
Qed.

Lemma in_range_spec (eq : EqualizerPayload) :
  in_range eq = negb ((band eq >? 14) || (band eq <? 0)).
Proof.
  unfold in_range.
  destruct (Z.leb_spec 0 (band eq)), (Z.leb_spec (band eq) 14),
    (Z.gtb_spec (band eq) 14), (Z.ltb_spec (band eq) 0); simpl; try reflexivity; lia.
Qed.

Lemma in_range_bounds (eq : EqualizerPayload) :
  in_range eq = true <-> 0 <= band eq <= 14.
Proof. unfold in_range. rewrite andb_true_iff, !Z.leb_le. tauto. Qed.

Lemma _set_step_in (tb : Equalizer.table) (eq : EqualizerPayload) :
  in_range eq = true -> Equalizer._set_step tb eq = dict_set (band eq) eq tb.
Proof.
  intros Hin. unfold Equalizer._set_step. rewrite in_range_spec in Hin.
  now destruct ((band eq >? 14) || (band eq <? 0)).
Qed.

Lemma _set_step_out (tb : Equalizer.table) (eq : EqualizerPayload) :
  in_range eq = false -> Equalizer._set_step tb eq = tb.
Proof.
  intros Hout. unfold Equalizer._set_step. rewrite in_range_spec in Hout.
  now destruct ((band eq >? 14) || (band eq <? 0)).
Qed.

Lemma Forall_dict_set {V : Type} (P : Z * V -> Prop) (k : Z) (v : V) (d : dict Z V) :
  Forall P d -> P (k, v) -> Forall P (dict_set k v d).
Proof.
  intros Hall Hkv. induction Hall as [|[k' v'] d Hhd Htl IH]; simpl.
  - now constructor.
  - destruct (k =? k'); constructor; auto.
Qed.

Lemma table_ok_default : table_ok Equalizer.default.
Proof.
  split; [reflexivity|]. unfold Equalizer.default.
  apply Forall_map, Forall_forall. reflexivity.
Qed.

Lemma table_ok_step (tb : Equalizer.table) (eq : EqualizerPayload) :
  table_ok tb -> table_ok (Equalizer._set_step tb eq).
Proof.
  intros [Hkeys Hband]. destruct (in_range eq) eqn:Hin.
  - rewrite _set_step_in by assumption. split.
    + rewrite dict_keys_set_in; [assumption|].
      rewrite Hkeys. now apply in_range15, in_range_bounds.
    + now apply Forall_dict_set.
  - rewrite _set_step_out by assumption. now split.
Qed.

Lemma table_ok_fold (payload : list EqualizerPayload) (tb : Equalizer.table) :
  table_ok tb -> table_ok (fold_left Equalizer._set_step payload tb).
Proof.
  revert tb. induction payload as [|eq payload IH]; simpl; intros tb Hok.
  - assumption.
  - apply IH, table_ok_step, Hok.
Qed.

Lemma table_ok__set (payload : list EqualizerPayload) :
  table_ok (Equalizer._set payload).
Proof. apply table_ok_fold, table_ok_default. Qed.

Lemma table_ok_init (payload : option (list EqualizerPayload)) :
  table_ok (Equalizer._payload (Equalizer.init payload)).
Proof.
  destruct payload as [l|]; simpl; [|apply table_ok_default].
  destruct (negb (Nat.eqb (List.length l) 0) && Nat.eqb (List.length l) 15);
    simpl; [apply table_ok__set | apply table_ok_default].
Qed.

Lemma table_ok_set (self : Equalizer.t) (options : Equalizer.EqualizerOptions) :
  table_ok (Equalizer._payload (Equalizer.set self options)).
Proof.
  unfold Equalizer.set.
  destruct (dict_get_default "bands" options None); simpl;
    [apply table_ok__set | apply table_ok_default].
Qed.

(** Entries out of range do not take part in the loop. *)
Lemma fold_set_filter (payload : list EqualizerPayload) (tb : Equalizer.table) :
  fold_left Equalizer._set_step payload tb =
  fold_left Equalizer._set_step (filter in_range payload) tb.
Proof.
  revert tb. induction payload as [|eq payload IH]; simpl; intros tb.
  - reflexivity.
  - destruct (in_range eq) eqn:Hin; simpl.
    + apply IH.
    + rewrite _set_step_out by assumption. apply IH.
Qed.

(** The slot of an admissible band after the loop: the last entry that names
    the band, or what the slot held before. *)
Lemma get_fold_set (b : Z) (payload : list EqualizerPayload) (tb : Equalizer.table) :
  0 <= b <= 14 ->
  dict_get b (fold_left Equalizer._set_step payload tb) =
    match last_with_band b payload with
    | Some eq => Some eq
    | None => dict_get b tb
    end.
Proof.
  intros Hb. unfold last_with_band.
  induction payload as [|eq payload IH] using rev_ind; simpl; [reflexivity|].
  rewrite fold_left_app, rev_unit. simpl.
  destruct (Z.eqb_spec (band eq) b) as [Heq|Hne].
  - rewrite _set_step_in by (apply in_range_bounds; lia).
    rewrite Heq. apply dict_get_set_same.
  - rewrite <- IH. destruct (in_range eq) eqn:Hin.
    + rewrite _set_step_in by assumption. now apply dict_get_set_other.
    + now rewrite _set_step_out.
Qed.

(** Feeding a table's own values back to the loop rebuilds the table. *)
Lemma fold_set_values (tb seen rest : Equalizer.table) :
  dict_keys rest = dict_keys tb ->
  NoDup (dict_keys tb) ->
  (forall k, In k (dict_keys tb) -> ~ In k (dict_keys seen)) ->
  Forall (fun kv => band (snd kv) = fst kv /\ 0 <= fst kv <= 14) tb ->
  fold_left Equalizer._set_step (dict_values tb) (seen ++ rest) = seen ++ tb.
Proof.
  revert seen rest.
  induction tb as [|[k eq] tb IH]; intros seen rest Hkeys Hnd Hfresh Hall.
  - destruct rest; [reflexivity|discriminate].
  - destruct rest as [|[k' eq'] rest]; [discriminate|].
    simpl in Hkeys. injection Hkeys as -> Hkeys.
    inversion Hnd as [|? ? Hnot Hnd']; subst.
    inversion Hall as [|? ? [Hband Hk] Hall']; subst. simpl in Hband, Hk.
    simpl. rewrite _set_step_in by (apply in_range_bounds; lia).
    rewrite Hband, dict_set_middle by (apply Hfresh; now left).
    change (seen ++ (k, eq) :: rest) with (seen ++ [(k, eq)] ++ rest).
    rewrite app_assoc, IH; try assumption.
    + now rewrite <- app_assoc.
    + intros k0 Hin. unfold dict_keys. rewrite map_app, in_app_iff. simpl.
      intros [Hseen|[->|[]]]; [|contradiction].
      apply (Hfresh k0); [now right | assumption].
Qed.

Lemma _set_values (tb : Equalizer.table) :
  table_ok tb -> Equalizer._set (dict_values tb) = tb.
Proof.
  intros [Hkeys Hband]. unfold Equalizer._set.
  apply (fold_set_values tb [] Equalizer.default).
  - now rewrite Hkeys.
  - rewrite Hkeys. apply NoDup_range15.
  - intros k _ [].
  - rewrite Forall_forall in *. intros [k eq] Hin. split; [now apply Hband|].
    apply in_range15. rewrite <- Hkeys. simpl.
    apply (in_map fst) in Hin. exact Hin.
Qed.

Lemma table_ok_length (tb : Equalizer.table) :
  table_ok tb -> List.length (dict_values tb) = 15%nat.
Proof.
  intros [Hkeys _]. unfold dict_values. rewrite length_map.
  rewrite <- (length_map fst). fold (dict_keys tb). now rewrite Hkeys.
Qed.

(** ** The payload of the aggregate *)

Lemma NoDup_payload_keys (self : Filters.t) :
  NoDup (dict_keys (Filters.full_payload self)).
Proof.
  simpl. repeat (constructor; [simpl; intuition discriminate|]). constructor.
Qed.

(** The deleting loop of [__call__] keeps the true values, in order. *)
Lemma call_filter (self : Filters.t) :
  Filters.__call__ self =
  filter (fun kv => truthy (snd kv)) (Filters.full_payload self).
Proof.
  unfold Filters.__call__, Filters.compact.
  apply (fold_del_filter truthy (Filters.full_payload self) []).
  - apply NoDup_payload_keys.
  - intros k _ [].
Qed.

Lemma get_call (self : Filters.t) (key : string) :
  dict_get key (Filters.__call__ self) =
    match dict_get key (Filters.full_payload self) with
    | Some v => if truthy v then Some v else None
    | None => None
    end.
Proof. rewrite call_filter. apply dict_get_filter, NoDup_payload_keys. Qed.

Lemma truthy_unit (d : UnitPayload) : truthy (WUnit d) = false -> d = [].
Proof. destruct d; [reflexivity|discriminate]. Qed.

(** A plain filter comes back from a payload as it went in. *)
Lemma get_unit_call (self : Filters.t) (key : string) (d : UnitPayload) :
  dict_get key (Filters.full_payload self) = Some (WUnit d) ->
  get_unit key (Filters.__call__ self) = Some d.
Proof.
  intros Hget. unfold get_unit. rewrite get_call, Hget.
  destruct (truthy (WUnit d)) eqn:Ht; [reflexivity|].
  now rewrite (truthy_unit d Ht).
Qed.

Lemma get_volume_call (self : Filters.t) :
  get_volume "volume" (Filters.__call__ self) =
  Some (sent_volume (Filters._volume self)).
Proof.
  unfold get_volume. rewrite get_call. simpl.
  destruct (Filters._volume self) as [x|]; simpl; [|reflexivity].
  now destruct (float_truthy x).
Qed.

Lemma get_bands_call (self : Filters.t) :
  table_ok (Equalizer._payload (Filters._equalizer self)) ->
  get_bands "equalizer" (Filters.__call__ self) =
  Some (Some (dict_values (Equalizer._payload (Filters._equalizer self)))).
Proof.
  intros Hok. unfold get_bands. rewrite get_call. simpl.
  now rewrite (table_ok_length _ Hok).
Qed.

Lemma init_own_values (tb : Equalizer.table) :
  table_ok tb -> Equalizer.init (Some (dict_values tb)) = Equalizer.mk tb.
Proof.
  intros Hok. unfold Equalizer.init.
  rewrite (table_ok_length _ Hok). simpl. now rewrite _set_values.
Qed.

(** The payload depends on the volume only through what is sent of it. *)
Lemma call_sent_volume v e k ts tr vi ro di cm lp :
  Filters.__call__ (Filters.mk (sent_volume v) e k ts tr vi ro di cm lp) =
  Filters.__call__ (Filters.mk v e k ts tr vi ro di cm lp).
Proof.
  rewrite !call_filter. destruct v as [x|]; [|reflexivity].
  unfold sent_volume. destruct (float_truthy x) eqn:Hx; [reflexivity|].
  simpl. now rewrite Hx.
Qed.

(** ** The [set] of the plain filters *)

(** The four filters that call [update] share one lookup law. *)
Lemma updating_set_lookup (prior : UnitPayload) (options : UnitOptions) (k : string) :
  NoDup (dict_keys options) ->
  dict_get k (dict_update prior options) =
    match dict_get k options with
    | Some v => Some v
    | None => dict_get k prior
    end.
Proof. apply dict_get_update. Qed.

(** The four filters that rebuild their payload store one entry per wire
    name, whatever was there before. *)
Lemma Karaoke_set_payload (self : Karaoke.t) (options : UnitOptions) :
  Karaoke.payload (Karaoke.set self options) =
  let prior := Karaoke.payload self in
  [ ("level", merged options prior "level" "level");
    ("monoLevel", merged options prior "mono_level" "monoLevel");
    ("filterBand", merged options prior "filter_band" "filterBand");
    ("filterWidth", merged options prior "filter_width" "filterWidth") ].
Proof. reflexivity. Qed.

Lemma Rotation_set_payload (self : Rotation.t) (options : UnitOptions) :
  Rotation.payload (Rotation.set self options) =
  [ ("rotationHz", merged options (Rotation.payload self) "rotation_hz" "rotationHz") ].
Proof. reflexivity. Qed.

Lemma Distortion_set_payload (self : Distortion.t) (options : UnitOptions) :
  Distortion.payload (Distortion.set self options) =
  let prior := Distortion.payload self in
  [ ("sinOffset", merged options prior "sin_offset" "sinOffset");
    ("sinScale", merged options prior "sin_scale" "sinScale");
    ("cosOffset", merged options prior "cos_offset" "cosOffset");
    ("cosScale", merged options prior "cos_scale" "cosScale");
    ("tanOffset", merged options prior "tan_offset" "tanOffset");
    ("tanScale", merged options prior "tan_scale" "tanScale");
    ("offset", merged options prior "offset" "offset");
    ("scale", merged options prior "scale" "scale") ].
Proof. reflexivity. Qed.

Lemma ChannelMix_set_payload (self : ChannelMix.t) (options : UnitOptions) :
  ChannelMix.payload (ChannelMix.set self options) =
  let prior := ChannelMix.payload self in
  [ ("leftToLeft", merged options prior "left_to_left" "leftToLeft");
    ("leftToRight", merged options prior "left_to_right" "leftToRight");
    ("rightToLeft", merged options prior "right_to_left" "rightToLeft");
    ("rightToRight", merged options prior "right_to_right" "rightToRight") ].
Proof. reflexivity. Qed.

(** A field that is neither supplied nor stored comes out as [None]. *)
Lemma merged_unconfigured (options : UnitOptions) (prior : UnitPayload)
    (caller wire : string) :
  dict_get caller options = None -> dict_get wire prior = None ->
  merged options prior caller wire = None.
Proof.
  intros Hopt Hprior. unfold merged, get_or_none, dict_get_default.
  now rewrite Hopt, Hprior.
Qed.

(** A supplied field comes out with the supplied value. *)
Lemma merged_supplied (options : UnitOptions) (prior : UnitPayload)
    (caller wire : string) (v : optfloat) :
  dict_get caller options = Some v -> merged options prior caller wire = v.
Proof. intros Hopt. unfold merged. now rewrite Hopt. Qed.

(** A field that is not supplied keeps the stored value. *)
Lemma merged_kept (options : UnitOptions) (prior : UnitPayload)
    (caller wire : string) (v : optfloat) :
  dict_get caller options = None -> dict_get wire prior = Some v ->
  merged options prior caller wire = v.
Proof.
  intros Hopt Hprior. unfold merged, get_or_none, dict_get_default.
  now rewrite Hopt, Hprior.
Qed.

(** C1, as stated, fails: a fresh Karaoke filter has no ["level"] key, a call
    of [set] without arguments supplies none, and yet the key is in the
    payload afterwards (with the value [None]). *)
Lemma karaoke_set_creates_absent_key :
  dict_get "level" (Karaoke.payload (Karaoke.mk [])) = None /\
  dict_get "level" ([] : UnitOptions) = None /\
  dict_get "level" (Karaoke.payload (Karaoke.set (Karaoke.mk []) [])) = Some None /\
  dict_get "level" (Karaoke.payload (Karaoke.set (Karaoke.mk []) []))
    <> dict_get "level" (Karaoke.payload (Karaoke.mk [])).
Proof. repeat split. discriminate. Qed.

(** C1, amended.  For Timescale, Tremolo, Vibrato and LowPass, [set] with
    keyword arguments gives a payload in which every supplied key has its
    supplied value and every other key is as before, present or absent.  For
    Karaoke, Rotation, Distortion and ChannelMix, [set] gives a payload with
    one entry for every wire name of the filter and no other: the supplied
    value when the field is supplied, otherwise the stored value, otherwise
    [None]. *)
Theorem set_merges_over_prior
    (prior : UnitPayload) (options : UnitOptions) (k : string)
    (Hkw : NoDup (dict_keys options)) :
  let looked_up :=
    match dict_get k options with
    | Some v => Some v
    | None => dict_get k prior
    end in
  dict_get k (Timescale.payload (Timescale.set (Timescale.mk prior) options)) = looked_up
  /\ dict_get k (Tremolo.payload (Tremolo.set (Tremolo.mk prior) options)) = looked_up
  /\ dict_get k (Vibrato.payload (Vibrato.set (Vibrato.mk prior) options)) = looked_up
  /\ dict_get k (LowPass.payload (LowPass.set (LowPass.mk prior) options)) = looked_up
  /\ Karaoke.payload (Karaoke.set (Karaoke.mk prior) options) =
       [ ("level", merged options prior "level" "level");
         ("monoLevel", merged options prior "mono_level" "monoLevel");
         ("filterBand", merged options prior "filter_band" "filterBand");
         ("filterWidth", merged options prior "filter_width" "filterWidth") ]
  /\ Rotation.payload (Rotation.set (Rotation.mk prior) options) =
       [ ("rotationHz", merged options prior "rotation_hz" "rotationHz") ]
  /\ Distortion.payload (Distortion.set (Distortion.mk prior) options) =
       [ ("sinOffset", merged options prior "sin_offset" "sinOffset");
         ("sinScale", merged options prior "sin_scale" "sinScale");
         ("cosOffset", merged options prior "cos_offset" "cosOffset");
         ("cosScale", merged options prior "cos_scale" "cosScale");
         ("tanOffset", merged options prior "tan_offset" "tanOffset");
         ("tanScale", merged options prior "tan_scale" "tanScale");
         ("offset", merged options prior "offset" "offset");
         ("scale", merged options prior "scale" "scale") ]
  /\ ChannelMix.payload (ChannelMix.set (ChannelMix.mk prior) options) =
       [ ("leftToLeft", merged options prior "left_to_left" "leftToLeft");
         ("leftToRight", merged options prior "left_to_right" "leftToRight");
         ("rightToLeft", merged options prior "right_to_left" "rightToLeft");
         ("rightToRight", merged options prior "right_to_right" "rightToRight") ]
  /\ (forall caller wire v,
        dict_get caller options = Some v -> merged options prior caller wire = v)
  /\ (forall caller wire,
        dict_get caller options = None ->
        merged options prior caller wire = get_or_none wire prior).
Proof.
  intros looked_up.
  repeat split; try reflexivity;
    try (apply updating_set_lookup; exact Hkw).
  - intros caller wire v. apply merged_supplied.
  - intros caller wire Hopt. unfold merged. now rewrite Hopt.
Qed.

(** The amended C1 at a stored pitch and the arguments [speed=2.0, pitch=None]. *)
Lemma set_merges_over_prior_witness :
  NoDup (dict_keys [("speed", Some 2%float); ("pitch", (None : optfloat))]) /\
  dict_get "speed"
    (Timescale.payload
       (Timescale.set (Timescale.mk [("pitch", Some 1%float); ("rate", Some 3%float)])
          [("speed", Some 2%float); ("pitch", None)]))
  = Some (Some 2%float).
Proof.
  assert (Hkw : NoDup (dict_keys [("speed", Some 2%float); ("pitch", (None : optfloat))])).
  { repeat (constructor; [simpl; intuition discriminate|]). constructor. }
  split; [exact Hkw|].
  exact (proj1 (set_merges_over_prior
                  [("pitch", Some 1%float); ("rate", Some 3%float)]
                  [("speed", Some 2%float); ("pitch", None)] "speed" Hkw)).
Defined.

(** ** [set_filters] and [reset] *)

(** Without [reset], each of the eight keys that [set_filters] reads under the
    name [FiltersOptions] declares replaces the attribute, and the others are
    kept.  Shown for [timescale]. *)
Lemma set_filters_timescale (self : Filters.t) (ts : Timescale.t) :
  Filters.set_filters self [("timescale", OTimescale ts)] =
  Some (Filters.mk (Filters._volume self) (Filters._equalizer self)
          (Filters._karaoke self) ts (Filters._tremolo self)
          (Filters._vibrato self) (Filters._rotation self)
          (Filters._distortion self) (Filters._channel_mix self)
          (Filters._low_pass self)).
Proof. reflexivity. Qed.

Lemma set_filters_volume (self : Filters.t) (x : float) :
  Filters.set_filters self [("volume", OFloat x)] =
  Some (Filters.mk (Some x) (Filters._equalizer self)
          (Filters._karaoke self) (Filters._timescale self)
          (Filters._tremolo self) (Filters._vibrato self)
          (Filters._rotation self) (Filters._distortion self)
          (Filters._channel_mix self) (Filters._low_pass self)).
Proof. reflexivity. Qed.

(** C2 names a defect of the code.  [FiltersOptions] declares the keys
    [channel_mix] and [low_pass], and [_set_with_reset] reads them under those
    names, but [set_filters] without [reset] looks for ["channelMix"] and
    ["lowPass"]: a channel mix or a low pass supplied there is not installed
    and the aggregate stays as it was, while the same argument with
    [reset=True] is installed. *)
Theorem set_filters_ignores_channel_mix
    (self : Filters.t) (c : ChannelMix.t) (l : LowPass.t) :
  Filters.set_filters self [("channel_mix", OChannelMix c)] = Some self
  /\ Filters.set_filters self [("low_pass", OLowPass l)] = Some self
  /\ Filters.set_filters self
       [("reset", OBool true); ("channel_mix", OChannelMix c); ("low_pass", OLowPass l)]
     = Some (Filters.mk None (Equalizer.init None) (Karaoke.mk []) (Timescale.mk [])
               (Tremolo.mk []) (Vibrato.mk []) (Rotation.mk []) (Distortion.mk [])
               c l).
Proof. destruct self. repeat split. Qed.

(** C8: [set_filters(reset=True)] with nothing else leaves the aggregate as
    [reset()] does, with the volume unset, the fifteen bands at gain zero and
    the eight plain filters empty. *)
Theorem set_filters_reset_is_reset (self : Filters.t) :
  Filters.set_filters self [("reset", OBool true)] = Some (Filters.reset self)
  /\ Filters.reset self =
       Filters.mk None (Equalizer.mk Equalizer.default) (Karaoke.mk [])
         (Timescale.mk []) (Tremolo.mk []) (Vibrato.mk []) (Rotation.mk [])
         (Distortion.mk []) (ChannelMix.mk []) (LowPass.mk [])
  /\ Filters.reset self = Filters.default.
Proof. repeat split. Qed.

(** ** Serialisation *)

(** C3, as stated, fails: the payload of a fresh aggregate is not empty. *)
Lemma default_call_not_empty :
  Filters.init None = Some Filters.default /\
  Filters.__call__ Filters.default <> [].
Proof. split; [reflexivity|]. vm_compute. discriminate. Qed.

(** C3, amended.  [__call__] leaves out every key whose value is [None], an
    empty mapping or an empty list.  The band table always has its fifteen
    entries, so the [equalizer] key is always sent, and the payload of a fresh
    aggregate holds that key alone, with the fifteen bands at gain zero. *)
Theorem call_omits_empty :
  (forall (self : Filters.t) (key : string) (v : wire),
      dict_get key (Filters.full_payload self) = Some v ->
      v = WNone \/ v = WUnit [] \/ v = WBands [] ->
      dict_get key (Filters.__call__ self) = None)
  /\ (forall self : Filters.t,
        table_ok (Equalizer._payload (Filters._equalizer self)) ->
        dict_get "equalizer" (Filters.__call__ self) =
        Some (WBands (dict_values (Equalizer._payload (Filters._equalizer self)))))
  /\ Filters.init None = Some Filters.default
  /\ Filters.__call__ Filters.default =
       [("equalizer", WBands (dict_values Equalizer.default))]
  /\ dict_values Equalizer.default =
       map (fun n => {| band := n; gain := 0%float |}) (range 15).
Proof.
  split; [|split; [|repeat split]].
  - intros self key v Hget Hempty. rewrite get_call, Hget.
    now destruct Hempty as [->|[->| ->]].
  - intros self Hok. rewrite get_call. simpl.
    now rewrite (table_ok_length _ Hok).
Qed.

(** The amended C3 at a fresh aggregate: the empty karaoke mapping is left
    out, the band table is sent. *)
Lemma call_omits_empty_witness :
  dict_get "karaoke" (Filters.__call__ Filters.default) = None /\
  dict_get "equalizer" (Filters.__call__ Filters.default) =
    Some (WBands (dict_values Equalizer.default)).
Proof.
  split.
  - apply (proj1 call_omits_empty Filters.default "karaoke" (WUnit []));
      [reflexivity | right; left; reflexivity].
  - apply (proj1 (proj2 call_omits_empty) Filters.default).
    exact table_ok_default.
Defined.

(** C9 names a defect of the code.  [__call__] tests [not value], which is
    also true of the float zero, so a volume set to [0.0], a value the
    docstring of [volume] gives as the lower end of the range, is left out of
    the payload as though it were unset.  A key is dropped exactly when its
    value is false in Python's sense: [None], a zero float, an empty list or
    an empty mapping. *)
Theorem call_drops_zero_volume :
  (forall (self : Filters.t) (key : string),
      dict_get key (Filters.__call__ self) =
        match dict_get key (Filters.full_payload self) with
        | Some v => if truthy v then Some v else None
        | None => None
        end)
  /\ (forall v : wire,
        truthy v = false <->
        v = WNone \/ v = WBands [] \/ v = WUnit []
        \/ exists x, v = WFloat x /\ PrimFloat.eqb x 0%float = true)
  /\ Filters._volume (Filters.set_volume Filters.default 0%float) = Some 0%float
  /\ dict_get "volume"
       (Filters.__call__ (Filters.set_volume Filters.default 0%float)) = None
  /\ Filters.__call__ (Filters.set_volume Filters.default 0%float) =
     Filters.__call__ Filters.default.
Proof.
  split; [exact get_call|]. split; [|repeat split].
  intros v. split.
  - destruct v as [|x|l|d]; simpl; intros Ht.
    + now left.
    + right; right; right. exists x. split; [reflexivity|].
      unfold float_truthy in Ht. now destruct (PrimFloat.eqb x 0).
    + right; left. now destruct l.
    + right; right; left. now destruct d.
  - intros [->|[->|[->|(x & -> & Hx)]]]; try reflexivity.
    simpl. unfold float_truthy. now rewrite Hx.
Qed.

(** Every way of building or changing an aggregate gives it a band table of
    the right shape, provided an Equalizer handed to [set_filters] is itself
    the result of the constructor, [set] or [reset]. *)
Lemma table_ok_Filters_default :
  table_ok (Equalizer._payload (Filters._equalizer Filters.default)).
Proof. exact table_ok_default. Qed.

Lemma table_ok_Filters_reset (self : Filters.t) :
  table_ok (Equalizer._payload (Filters._equalizer (Filters.reset self))).
Proof. exact table_ok_default. Qed.

Lemma table_ok_Filters_init (data : option FilterPayload) (self : Filters.t) :
  Filters.init data = Some self ->
  table_ok (Equalizer._payload (Filters._equalizer self)).
Proof.
  unfold Filters.init, Filters._create_from, obind. intros Hinit.
  repeat match type of Hinit with
         | match ?x with _ => _ end = Some _ => destruct x; try discriminate
         | (if ?b then _ else _) = Some _ => destruct b
         end;
    injection Hinit as <-; simpl;
    first [apply table_ok_init | apply table_ok_default].
Qed.

Lemma table_ok_Filters_set_filters
    (self self' : Filters.t) (filters : FiltersOptions) :
  table_ok (Equalizer._payload (Filters._equalizer self)) ->
  (forall e, dict_get "equalizer" filters = Some (OEqualizer e) ->
             table_ok (Equalizer._payload e)) ->
  Filters.set_filters self filters = Some self' ->
  table_ok (Equalizer._payload (Filters._equalizer self')).
Proof.
  intros Hself Hgiven.
  unfold Filters.set_filters, Filters._set_with_reset, obind, kwget.
  destruct (dict_get "equalizer" filters) as [[]|] eqn:Heq; simpl;
    intros Hset;
    repeat match type of Hset with
           | match ?x with _ => _ end = Some _ => destruct x; try discriminate
           | (if ?b then _ else _) = Some _ => destruct b
           end;
    injection Hset as <-; simpl;
    first [now apply Hgiven | assumption | apply table_ok_default].
Qed.

(** C4: an aggregate built from the payload of [self] has the payload of
    [self], as the same ordered list of keys and values.  The band table of
    [self] has the shape that every operation of [Equalizer] and of [Filters]
    gives it ([table_ok_init], [table_ok_set], [table_ok_Filters_init],
    [table_ok_Filters_set_filters]). *)
Theorem call_init_call (self : Filters.t)
    (Hok : table_ok (Equalizer._payload (Filters._equalizer self))) :
  exists self' : Filters.t,
    Filters.init (Some (Filters.__call__ self)) = Some self'
    /\ Filters.__call__ self' = Filters.__call__ self.
Proof.
  destruct self as [v [tb] [k] [ts] [tr] [vi] [ro] [di] [cm] [lp]].
  simpl in Hok.
  set (self := Filters.mk v (Equalizer.mk tb) (Karaoke.mk k) (Timescale.mk ts)
                 (Tremolo.mk tr) (Vibrato.mk vi) (Rotation.mk ro)
                 (Distortion.mk di) (ChannelMix.mk cm) (LowPass.mk lp)).
  exists (Filters.mk (sent_volume v) (Equalizer.mk tb) (Karaoke.mk k)
            (Timescale.mk ts) (Tremolo.mk tr) (Vibrato.mk vi) (Rotation.mk ro)
            (Distortion.mk di) (ChannelMix.mk cm) (LowPass.mk lp)).
  split; [|apply call_sent_volume].
  assert (Hbands : get_bands "equalizer" (Filters.__call__ self) =
                   Some (Some (dict_values tb))) by now apply get_bands_call.
  unfold Filters.init.
  destruct (Filters.__call__ self) as [|kv payload] eqn:Hcall; [discriminate|].
  change (negb (Nat.eqb (List.length (kv :: payload)) 0)) with true. cbv iota.
  rewrite <- Hcall in *. unfold Filters._create_from.
  rewrite get_volume_call, Hbands.
  rewrite (get_unit_call self "karaoke" k eq_refl).
  rewrite (get_unit_call self "timescale" ts eq_refl).
  rewrite (get_unit_call self "tremolo" tr eq_refl).
  rewrite (get_unit_call self "vibrato" vi eq_refl).
  rewrite (get_unit_call self "rotation" ro eq_refl).
  rewrite (get_unit_call self "distortion" di eq_refl).
  rewrite (get_unit_call self "channelMix" cm eq_refl).
  rewrite (get_unit_call self "lowPass" lp eq_refl).
  cbv [obind]. now rewrite init_own_values.
Qed.

(** C4 at an aggregate with a volume, a band raised and a karaoke level. *)
Lemma call_init_call_witness :
  let self :=
    Filters.mk (Some 0.5%float)
      (Equalizer.set (Equalizer.init None)
         [("bands", Some [ {| band := 3; gain := 0.25%float |} ])])
      (Karaoke.set (Karaoke.mk []) [("level", Some 1%float)])
      (Timescale.mk []) (Tremolo.mk []) (Vibrato.mk []) (Rotation.mk [])
      (Distortion.mk []) (ChannelMix.mk []) (LowPass.mk []) in
  table_ok (Equalizer._payload (Filters._equalizer self)) /\
  exists self' : Filters.t,
    Filters.init (Some (Filters.__call__ self)) = Some self'
    /\ Filters.__call__ self' = Filters.__call__ self.
Proof.
  intros self.
  assert (Hok : table_ok (Equalizer._payload (Filters._equalizer self))).
  { split; [reflexivity|]. repeat constructor. }
  split; [exact Hok|]. exact (call_init_call self Hok).
Defined.

(** ** The Equalizer *)

(** C5, as stated, fails: [set] does not test the length of the list.  One
    band handed to [set] is stored, the result is not the default table. *)
Lemma equalizer_set_short_list :
  List.length [ {| band := 0; gain := 0.5%float |} ] <> 15%nat /\
  Equalizer.set (Equalizer.init None)
    [("bands", Some [ {| band := 0; gain := 0.5%float |} ])]
  <> Equalizer.mk Equalizer.default.
Proof.
  split; [discriminate|]. intros Heq.
  apply (f_equal (fun e =>
           option_map (fun eq => float_truthy (gain eq))
             (dict_get 0 (Equalizer.payload e)))) in Heq.
  vm_compute in Heq. discriminate.
Qed.

(** C5, amended.  The constructor takes a list of exactly fifteen entries
    through the loop of [_set] and gives the default table for no list or a
    list of any other length.  [set] gives the default table when [bands] is
    missing or [None], and takes a list of any length through the same loop.
    After the loop, the slot of a band [b] in [0..14] holds the last entry of
    the list that names [b], and the default entry when none does. *)
Theorem equalizer_hydration
    (payload : list EqualizerPayload) (b : Z) (Hb : 0 <= b <= 14) :
  Equalizer.init (Some payload) =
    (if Nat.eqb (List.length payload) 15
     then Equalizer.mk (Equalizer._set payload)
     else Equalizer.mk Equalizer.default)
  /\ Equalizer.init None = Equalizer.mk Equalizer.default
  /\ (forall self, Equalizer.set self [("bands", Some payload)]
                   = Equalizer.mk (Equalizer._set payload))
  /\ (forall self, Equalizer.set self [] = Equalizer.mk Equalizer.default)
  /\ (forall self, Equalizer.set self [("bands", None)]
                   = Equalizer.mk Equalizer.default)
  /\ dict_get b (Equalizer._set payload) =
       Some match last_with_band b payload with
            | Some eq => eq
            | None => {| band := b; gain := 0%float |}
            end.
Proof.
  repeat split.
  - unfold Equalizer.init.
    destruct (Nat.eqb_spec (List.length payload) 15) as [Hlen|Hlen].
    + now rewrite Hlen.
    + now rewrite andb_false_r.
  - unfold Equalizer._set. rewrite (get_fold_set b payload _ Hb).
    destruct (last_with_band b payload); [reflexivity|].
    assert (Hcases : b = 0 \/ b = 1 \/ b = 2 \/ b = 3 \/ b = 4 \/ b = 5 \/ b = 6
                     \/ b = 7 \/ b = 8 \/ b = 9 \/ b = 10 \/ b = 11 \/ b = 12
                     \/ b = 13 \/ b = 14) by lia.
    repeat (destruct Hcases as [->|Hcases]; [reflexivity|]). now subst.
Qed.

(** The amended C5 at fifteen entries of which three name band [2]: the last
    of the three is the one kept. *)
Lemma equalizer_hydration_witness :
  let payload :=
    [ {| band := 2; gain := 0.25%float |}; {| band := 0; gain := 0.5%float |};
      {| band := 2; gain := 0.75%float |}; {| band := 3; gain := 0%float |};
      {| band := 4; gain := 0%float |}; {| band := 5; gain := 0%float |};
      {| band := 6; gain := 0%float |}; {| band := 7; gain := 0%float |};
      {| band := 8; gain := 0%float |}; {| band := 9; gain := 0%float |};
      {| band := 10; gain := 0%float |}; {| band := 11; gain := 0%float |};
      {| band := 2; gain := 1%float |}; {| band := 13; gain := 0%float |};
      {| band := 14; gain := 0%float |} ] in
  0 <= 2 <= 14 /\
  dict_get 2 (Equalizer.payload (Equalizer.init (Some payload))) =
    Some {| band := 2; gain := 1%float |}.
Proof.
  intros payload.
  assert (Hb : 0 <= 2 <= 14) by lia.
  split; [exact Hb|].
  destruct (equalizer_hydration payload 2 Hb) as (Hinit & _ & _ & _ & _ & Hslot).
  rewrite Hinit. exact Hslot.
Defined.

(** C6: after the constructor, [set] and [reset] the band table has the keys
    [0..14], once each and in order, and every slot holds an entry of its own
    band.  An entry whose band is outside [0..14] leaves the table as it is,
    so the loop of [_set] gives the same table with and without such entries. *)
Theorem equalizer_table_invariant :
  (forall payload, table_ok (Equalizer.payload (Equalizer.init payload)))
  /\ (forall self options, table_ok (Equalizer.payload (Equalizer.set self options)))
  /\ (forall self, table_ok (Equalizer.payload (Equalizer.reset self)))
  /\ (forall tb, table_ok tb ->
        dict_keys tb = [0; 1; 2; 3; 4; 5; 6; 7; 8; 9; 10; 11; 12; 13; 14]
        /\ List.length tb = 15%nat)
  /\ (forall tb eq, band eq < 0 \/ 14 < band eq -> Equalizer._set_step tb eq = tb)
  /\ (forall payload,
        Equalizer._set payload = Equalizer._set (filter in_range payload)).
Proof.
  split; [exact table_ok_init|]. split; [exact table_ok_set|].
  split; [intros self; exact table_ok_default|].
  split; [|split].
  - intros tb [Hkeys _]. split; [exact Hkeys|].
    rewrite <- (length_map fst). fold (dict_keys tb). now rewrite Hkeys.
  - intros tb eq Hout. apply _set_step_out.
    destruct (in_range eq) eqn:Hin; [|reflexivity].
    apply in_range_bounds in Hin. lia.
  - intros payload. apply fold_set_filter.
Qed.

(** C6 at a list with the bands [-1] and [15] around one admissible entry. *)
Lemma equalizer_table_invariant_witness :
  Equalizer.payload
    (Equalizer.set (Equalizer.init None)
       [("bands", Some [ {| band := -1; gain := 1%float |};
                         {| band := 4; gain := 0.5%float |};
                         {| band := 15; gain := 1%float |} ])])
  = Equalizer._set [ {| band := 4; gain := 0.5%float |} ]
  /\ dict_keys (Equalizer._set [ {| band := 4; gain := 0.5%float |} ])
     = [0; 1; 2; 3; 4; 5; 6; 7; 8; 9; 10; 11; 12; 13; 14].
Proof.
  destruct equalizer_table_invariant as (_ & Hset & _ & Hshape & _ & Hdrop).
  split.
  - exact (Hdrop [ {| band := -1; gain := 1%float |};
                   {| band := 4; gain := 0.5%float |};
                   {| band := 15; gain := 1%float |} ]).
  - exact (proj1 (Hshape _ (Hset (Equalizer.init None)
                              [("bands", Some [ {| band := 4; gain := 0.5%float |} ])]))).
Defined.

(** ** [reset] of the filters *)

(** C7, as stated, fails for the Equalizer: after [reset] its payload is the
    table of fifteen bands, not the empty mapping. *)
Lemma equalizer_reset_not_empty :
  Equalizer.payload (Equalizer.reset (Equalizer.init None)) <> [].
Proof. discriminate. Qed.

(** C7, amended.  After [reset] the payload of each of the eight plain
    filters is the empty mapping; the payload of the Equalizer is the table of
    the fifteen bands [0..14], each at gain zero. *)
Theorem reset_payload
    (e : Equalizer.t) (k : Karaoke.t) (ts : Timescale.t) (tr : Tremolo.t)
    (vi : Vibrato.t) (ro : Rotation.t) (di : Distortion.t) (cm : ChannelMix.t)
    (lp : LowPass.t) :
  Karaoke.payload (Karaoke.reset k) = []
  /\ Timescale.payload (Timescale.reset ts) = []
  /\ Tremolo.payload (Tremolo.reset tr) = []
  /\ Vibrato.payload (Vibrato.reset vi) = []
  /\ Rotation.payload (Rotation.reset ro) = []
  /\ Distortion.payload (Distortion.reset di) = []
  /\ ChannelMix.payload (ChannelMix.reset cm) = []
  /\ LowPass.payload (LowPass.reset lp) = []
  /\ Equalizer.payload (Equalizer.reset e) =
       map (fun n => (n, {| band := n; gain := 0%float |}))
         [0; 1; 2; 3; 4; 5; 6; 7; 8; 9; 10; 11; 12; 13; 14].
Proof. repeat split. Qed.

(** ** Rebuilding [set] and the payload *)

(** C10: for Karaoke, Rotation, Distortion and ChannelMix every call of [set]
    leaves an entry under each wire name of the filter, [None] where the field
    was neither supplied nor stored; on a fresh filter and without arguments
    every entry is [None].  The mapping is not empty, so [__call__] sends it
    as it is, whatever the volume, the band table and the other filters of
    the aggregate are: after [set()] on the Karaoke filter of a fresh
    aggregate the payload holds the [karaoke] key with its four nulls. *)
Theorem rebuilding_set_fills_payload (prior : UnitPayload) (options : UnitOptions) :
  dict_keys (Karaoke.payload (Karaoke.set (Karaoke.mk prior) options))
    = ["level"; "monoLevel"; "filterBand"; "filterWidth"]
  /\ dict_keys (Rotation.payload (Rotation.set (Rotation.mk prior) options))
    = ["rotationHz"]
  /\ dict_keys (Distortion.payload (Distortion.set (Distortion.mk prior) options))
    = ["sinOffset"; "sinScale"; "cosOffset"; "cosScale";
       "tanOffset"; "tanScale"; "offset"; "scale"]
  /\ dict_keys (ChannelMix.payload (ChannelMix.set (ChannelMix.mk prior) options))
    = ["leftToLeft"; "leftToRight"; "rightToLeft"; "rightToRight"]
  /\ (forall caller wire,
        In (caller, wire)
          [ ("level", "level"); ("mono_level", "monoLevel");
            ("filter_band", "filterBand"); ("filter_width", "filterWidth") ] ->
        dict_get wire (Karaoke.payload (Karaoke.set (Karaoke.mk prior) options))
        = Some (merged options prior caller wire))
  /\ (dict_get "rotationHz" (Rotation.payload (Rotation.set (Rotation.mk prior) options))
        = Some (merged options prior "rotation_hz" "rotationHz"))
  /\ (forall caller wire,
        In (caller, wire)
          [ ("sin_offset", "sinOffset"); ("sin_scale", "sinScale");
            ("cos_offset", "cosOffset"); ("cos_scale", "cosScale");
            ("tan_offset", "tanOffset"); ("tan_scale", "tanScale");
            ("offset", "offset"); ("scale", "scale") ] ->
        dict_get wire (Distortion.payload (Distortion.set (Distortion.mk prior) options))
        = Some (merged options prior caller wire))
  /\ (forall caller wire,
        In (caller, wire)
          [ ("left_to_left", "leftToLeft"); ("left_to_right", "leftToRight");
            ("right_to_left", "rightToLeft"); ("right_to_right", "rightToRight") ] ->
        dict_get wire (ChannelMix.payload (ChannelMix.set (ChannelMix.mk prior) options))
        = Some (merged options prior caller wire))
  /\ (forall caller wire,
        dict_get caller options = None -> dict_get wire prior = None ->
        merged options prior caller wire = None)
  /\ Karaoke.payload (Karaoke.set (Karaoke.mk []) []) =
       [("level", None); ("monoLevel", None); ("filterBand", None); ("filterWidth", None)]
  /\ Rotation.payload (Rotation.set (Rotation.mk []) []) = [("rotationHz", None)]
  /\ Distortion.payload (Distortion.set (Distortion.mk []) []) =
       [("sinOffset", None); ("sinScale", None); ("cosOffset", None); ("cosScale", None);
        ("tanOffset", None); ("tanScale", None); ("offset", None); ("scale", None)]
  /\ ChannelMix.payload (ChannelMix.set (ChannelMix.mk []) []) =
       [("leftToLeft", None); ("leftToRight", None);
        ("rightToLeft", None); ("rightToRight", None)]
  /\ (forall v e k ts tr vi ro di cm lp,
        dict_get "karaoke"
          (Filters.__call__
             (Filters.mk v e (Karaoke.set k options) ts tr vi ro di cm lp))
        = Some (WUnit (Karaoke.payload (Karaoke.set k options))))
  /\ (forall v e k ts tr vi ro di cm lp,
        dict_get "rotation"
          (Filters.__call__
             (Filters.mk v e k ts tr vi (Rotation.set ro options) di cm lp))
        = Some (WUnit (Rotation.payload (Rotation.set ro options))))
  /\ (forall v e k ts tr vi ro di cm lp,
        dict_get "distortion"
          (Filters.__call__
             (Filters.mk v e k ts tr vi ro (Distortion.set di options) cm lp))
        = Some (WUnit (Distortion.payload (Distortion.set di options))))
  /\ (forall v e k ts tr vi ro di cm lp,
        dict_get "channelMix"
          (Filters.__call__
             (Filters.mk v e k ts tr vi ro di (ChannelMix.set cm options) lp))
        = Some (WUnit (ChannelMix.payload (ChannelMix.set cm options))))
  /\ Filters.__call__
       (Filters.mk None (Equalizer.init None) (Karaoke.set (Karaoke.mk []) [])
          (Timescale.mk []) (Tremolo.mk []) (Vibrato.mk []) (Rotation.mk [])
          (Distortion.mk []) (ChannelMix.mk []) (LowPass.mk []))
     = [ ("equalizer", WBands (dict_values Equalizer.default));
         ("karaoke",
          WUnit [ ("level", None); ("monoLevel", None);
                  ("filterBand", None); ("filterWidth", None) ]) ].
Proof.
  repeat match goal with |- _ /\ _ => split end; try reflexivity.
  - intros caller wire Hin. simpl in Hin.
    repeat (destruct Hin as [[= <- <-]|Hin]; [reflexivity|]). contradiction.
  - intros caller wire Hin. simpl in Hin.
    repeat (destruct Hin as [[= <- <-]|Hin]; [reflexivity|]). contradiction.
  - intros caller wire Hin. simpl in Hin.
    repeat (destruct Hin as [[= <- <-]|Hin]; [reflexivity|]). contradiction.
  - apply merged_unconfigured.
  - intros v e k ts tr vi ro di cm lp. rewrite get_call. reflexivity.
  - intros v e k ts tr vi ro di cm lp. rewrite get_call. reflexivity.
  - intros v e k ts tr vi ro di cm lp. rewrite get_call. reflexivity.
  - intros v e k ts tr vi ro di cm lp. rewrite get_call. reflexivity.
Qed.

(** C10 at a fresh Karaoke filter and the single argument [level=1.0]: the
    three other fields are stored as [None]; and at a fresh aggregate on whose
    Karaoke filter [set()] was called with no argument: the [karaoke] key is
    in the payload, with its four nulls. *)
Lemma rebuilding_set_fills_payload_witness :
  In ("mono_level", "monoLevel")
    [ ("level", "level"); ("mono_level", "monoLevel");
      ("filter_band", "filterBand"); ("filter_width", "filterWidth") ]
  /\ dict_get "monoLevel"
       (Karaoke.payload (Karaoke.set (Karaoke.mk []) [("level", Some 1%float)]))
     = Some (merged [("level", Some 1%float)] [] "mono_level" "monoLevel")
  /\ merged [("level", Some 1%float)] [] "mono_level" "monoLevel" = None
  /\ dict_get "karaoke"
       (Filters.__call__
          (Filters.mk None (Equalizer.init None) (Karaoke.set (Karaoke.mk []) [])
             (Timescale.mk []) (Tremolo.mk []) (Vibrato.mk []) (Rotation.mk [])
             (Distortion.mk []) (ChannelMix.mk []) (LowPass.mk [])))
     = Some (WUnit [ ("level", None); ("monoLevel", None);
                     ("filterBand", None); ("filterWidth", None) ]).
Proof.
  assert (Hin : In ("mono_level", "monoLevel")
                  [ ("level", "level"); ("mono_level", "monoLevel");
                    ("filter_band", "filterBand"); ("filter_width", "filterWidth") ])
    by (right; left; reflexivity).
  destruct (rebuilding_set_fills_payload [] [("level", Some 1%float)])
    as (_ & _ & _ & _ & Hkaraoke & _ & _ & _ & Hnone & _).
  destruct (rebuilding_set_fills_payload [] [])
    as (_ & _ & _ & _ & _ & _ & _ & _ & _ & _ & _ & _ & _ & Hsent & _).
  split; [exact Hin|]. split; [|split].
  - exact (Hkaraoke "mono_level" "monoLevel" Hin).
  - apply Hnone; reflexivity.
  - exact (Hsent None (Equalizer.init None) (Karaoke.mk []) (Timescale.mk [])
             (Tremolo.mk []) (Vibrato.mk []) (Rotation.mk []) (Distortion.mk [])
             (ChannelMix.mk []) (LowPass.mk [])).
Defined.

(** * Further properties of the code *)

(** ** More on dictionaries *)

Section DictCompose.
Context {K V : Type} `{KeyEq K}.
Implicit Types (k : K) (v : V) (d : dict K V).

Lemma dict_keys_set_sub k k' v d :
  In k' (dict_keys d) -> In k' (dict_keys (dict_set k v d)).
Proof.
  induction d as [|[k0 v0] d IH]; simpl; intros Hin; [contradiction|].
  destruct (key_eqb_spec k k0) as [->|Hne]; simpl.
  - exact Hin.
  - destruct Hin; [now left | right; auto].
Qed.

Lemma dict_keys_set_inv k k' v d :
  In k' (dict_keys (dict_set k v d)) -> k' = k \/ In k' (dict_keys d).
Proof.
  induction d as [|[k0 v0] d IH]; simpl.
  - intros [->|[]]. now left.
  - destruct (key_eqb_spec k k0) as [->|Hne]; simpl.
    + intros [->|Hin]; [now left | right; now right].
    + intros [->|Hin]; [right; now left|].
      destruct (IH Hin); [now left | right; now right].
Qed.

(** Assignment keeps a dictionary a dictionary: no key comes twice. *)
Lemma NoDup_dict_set k v d :
  NoDup (dict_keys d) -> NoDup (dict_keys (dict_set k v d)).
Proof.
  induction d as [|[k0 v0] d IH]; simpl; intros Hnd.
  - constructor; [intros []|constructor].
  - inversion Hnd as [|? ? Hnot Hnd']; subst.
    destruct (key_eqb_spec k k0) as [->|Hne]; simpl.
    + now constructor.
    + constructor; [|now apply IH].
      intros Hin. destruct (dict_keys_set_inv _ _ _ _ Hin); congruence.
Qed.

Lemma NoDup_dict_update (d other : dict K V) :
  NoDup (dict_keys d) -> NoDup (dict_keys (dict_update d other)).
Proof.
  unfold dict_update. revert d.
  induction other as [|[k v] other IH]; simpl; intros d Hnd; [assumption|].
  apply IH, NoDup_dict_set, Hnd.
Qed.

Lemma dict_set_set k v v' d :
  dict_set k v (dict_set k v' d) = dict_set k v d.
Proof.
  induction d as [|[k0 v0] d IH]; simpl.
  - now rewrite key_eqb_refl.
  - destruct (key_eqb_spec k k0) as [->|Hne]; simpl.
    + now rewrite key_eqb_refl.
    + rewrite (key_eqb_neq _ _ Hne). now rewrite IH.
Qed.

(** Assignments to two keys commute when the one made last is to a key
    that is already there, so that no position depends on the order. *)
Lemma dict_set_comm k k' v v' d :
  k <> k' -> In k (dict_keys d) ->
  dict_set k v (dict_set k' v' d) = dict_set k' v' (dict_set k v d).
Proof.
  intros Hne. induction d as [|[k0 v0] d IH]; simpl; intros Hin; [contradiction|].
  destruct (key_eqb_spec k' k0) as [->|Hk'], (key_eqb_spec k k0) as [->|Hk];
    simpl; try congruence.
  - now rewrite (key_eqb_neq _ _ Hne), key_eqb_refl.
  - rewrite key_eqb_refl, key_eqb_neq; congruence.
  - rewrite (key_eqb_neq _ _ Hk), (key_eqb_neq _ _ Hk'). f_equal. apply IH.
    destruct Hin; congruence.
Qed.

Lemma dict_set_update k v (d other : dict K V) :
  ~ In k (dict_keys other) -> In k (dict_keys d) ->
  dict_set k v (dict_update d other) = dict_update (dict_set k v d) other.
Proof.
  unfold dict_update. revert d.
  induction other as [|[k0 v0] other IH]; simpl; intros d Hnot Hin; [reflexivity|].
  rewrite IH.
  - f_equal. apply dict_set_comm; [|assumption]. intros ->. apply Hnot. now left.
  - intros Hin'. apply Hnot. now right.
  - now apply dict_keys_set_sub.
Qed.

Lemma dict_keys_set_self k v d : In k (dict_keys (dict_set k v d)).
Proof.
  induction d as [|[k0 v0] d IH]; simpl; [now left|].
  destruct (key_eqb_spec k k0) as [->|Hne]; simpl; [now left | now right].
Qed.

(** Assigning into the arguments before [update] is assigning into the
    result after it. *)
Lemma dict_update_set k v (d other : dict K V) :
  NoDup (dict_keys other) ->
  dict_update d (dict_set k v other) = dict_set k v (dict_update d other).
Proof.
  unfold dict_update. revert d.
  induction other as [|[k0 v0] other IH]; simpl; intros d Hnd; [reflexivity|].
  inversion Hnd as [|? ? Hnot Hnd']; subst.
  destruct (key_eqb_spec k k0) as [->|Hne]; simpl.
  - change (fold_left (fun acc kv => dict_set (fst kv) (snd kv) acc) other ?x)
      with (dict_update x other).
    rewrite (dict_set_update k0 v (dict_set k0 v0 d) other Hnot
               (dict_keys_set_self _ _ _)).
    now rewrite dict_set_set.
  - apply IH, Hnd'.
Qed.

(** Two updates in a row are one update with the merged arguments. *)
Lemma dict_update_update (d o1 o2 : dict K V) :
  NoDup (dict_keys o1) ->
  dict_update (dict_update d o1) o2 = dict_update d (dict_update o1 o2).
Proof.
  revert o1.
  induction o2 as [|[k v] o2 IH]; intros o1 Hnd; [reflexivity|].
  change (dict_update (dict_update d o1) ((k, v) :: o2))
    with (dict_update (dict_set k v (dict_update d o1)) o2).
  change (dict_update o1 ((k, v) :: o2)) with (dict_update (dict_set k v o1) o2).
  rewrite <- dict_update_set by assumption.
  apply IH, NoDup_dict_set, Hnd.
Qed.

Lemma dict_get_In k v d :
  NoDup (dict_keys d) -> In (k, v) d -> dict_get k d = Some v.
Proof.
  induction d as [|[k0 v0] d IH]; simpl; intros Hnd Hin; [contradiction|].
  inversion Hnd as [|? ? Hnot Hnd']; subst.
  destruct Hin as [[= -> ->]|Hin]; [now rewrite key_eqb_refl|].
  rewrite key_eqb_neq; [now apply IH|].
  intros ->. apply Hnot. apply (in_map fst) in Hin. exact Hin.
Qed.

Lemma dict_set_stored k v d : dict_get k d = Some v -> dict_set k v d = d.
Proof.
  induction d as [|[k0 v0] d IH]; simpl; [discriminate|].
  destruct (key_eqb_spec k k0) as [->|Hne]; [congruence|].
  intros Hget. now rewrite IH.
Qed.

Lemma dict_update_stored (d other : dict K V) :
  (forall k v, In (k, v) other -> dict_get k d = Some v) ->
  dict_update d other = d.
Proof.
  unfold dict_update.
  induction other as [|[k v] other IH]; simpl; intros Hall; [reflexivity|].
  rewrite dict_set_stored by (apply Hall; now left).
  apply IH. intros k' v' Hin. apply Hall. now right.
Qed.

Lemma dict_update_self (d : dict K V) :
  NoDup (dict_keys d) -> dict_update d d = d.
Proof.
  intros Hnd. apply dict_update_stored. intros k v. now apply dict_get_In.
Qed.

Lemma dict_get_default_update k (o1 o2 : dict K V) (dflt : V) :
  NoDup (dict_keys o2) ->
  dict_get_default k (dict_update o1 o2) dflt =
  dict_get_default k o2 (dict_get_default k o1 dflt).
Proof.
  intros Hnd. unfold dict_get_default. rewrite dict_get_update by assumption.
  now destruct (dict_get k o2).
Qed.

Lemma dict_get_default_twice k d (dflt : V) :
  dict_get_default k d (dict_get_default k d dflt) = dict_get_default k d dflt.
Proof. unfold dict_get_default. now destruct (dict_get k d). Qed.

(** Two dictionaries with the same keys in the same order and the same
    value under every key are the same dictionary. *)
Lemma dict_ext (d1 d2 : dict K V) :
  dict_keys d1 = dict_keys d2 -> NoDup (dict_keys d1) ->
  (forall k, In k (dict_keys d1) -> dict_get k d1 = dict_get k d2) ->
  d1 = d2.
Proof.
  revert d2. induction d1 as [|[k v] d1 IH]; intros [|[k' v'] d2]; simpl;
    try discriminate; [reflexivity|].
  intros [= <- Hkeys] Hnd Hget.
  inversion Hnd as [|? ? Hnot Hnd']; subst.
  pose proof (Hget k (or_introl eq_refl)) as Hk.
  rewrite key_eqb_refl in Hk. injection Hk as <-.
  f_equal. apply IH; try assumption.
  intros k0 Hin. specialize (Hget k0 (or_intror Hin)).
  rewrite key_eqb_neq in Hget by (intros ->; contradiction). exact Hget.
Qed.

Lemma NoDup_keys_filter (keep : V -> bool) d :
  NoDup (dict_keys d) ->
  NoDup (dict_keys (filter (fun kv => keep (snd kv)) d)).
Proof.
  induction d as [|[k v] d IH]; simpl; intros Hnd; [constructor|].
  inversion Hnd as [|? ? Hnot Hnd']; subst.
  destruct (keep v); simpl; [|now apply IH].
  constructor; [|now apply IH].
  intros Hin. apply Hnot. unfold dict_keys in *.
  apply in_map_iff in Hin as ([k' v'] & Hk & Hin). simpl in Hk. subst k'.
  apply filter_In in Hin as [Hin _]. apply (in_map fst) in Hin. exact Hin.
Qed.
End DictCompose.

(** ** Calls of [set] in a row *)

(** X1.  For each of the eight plain filters, two calls of [set] in a row
    leave the filter as one call does whose keyword arguments are the first
    ones updated by the second ones: a field given twice takes the later
    value.  The payloads agree as ordered dictionaries. *)
Theorem set_twice_is_set_of_update
    (prior : UnitPayload) (o1 o2 : UnitOptions)
    (Hkw1 : NoDup (dict_keys o1)) (Hkw2 : NoDup (dict_keys o2)) :
  Karaoke.set (Karaoke.set (Karaoke.mk prior) o1) o2
    = Karaoke.set (Karaoke.mk prior) (dict_update o1 o2)
  /\ Timescale.set (Timescale.set (Timescale.mk prior) o1) o2
    = Timescale.set (Timescale.mk prior) (dict_update o1 o2)
  /\ Tremolo.set (Tremolo.set (Tremolo.mk prior) o1) o2
    = Tremolo.set (Tremolo.mk prior) (dict_update o1 o2)
  /\ Vibrato.set (Vibrato.set (Vibrato.mk prior) o1) o2
    = Vibrato.set (Vibrato.mk prior) (dict_update o1 o2)
  /\ Rotation.set (Rotation.set (Rotation.mk prior) o1) o2
    = Rotation.set (Rotation.mk prior) (dict_update o1 o2)
  /\ Distortion.set (Distortion.set (Distortion.mk prior) o1) o2
    = Distortion.set (Distortion.mk prior) (dict_update o1 o2)
  /\ ChannelMix.set (ChannelMix.set (ChannelMix.mk prior) o1) o2
    = ChannelMix.set (ChannelMix.mk prior) (dict_update o1 o2)
  /\ LowPass.set (LowPass.set (LowPass.mk prior) o1) o2
    = LowPass.set (LowPass.mk prior) (dict_update o1 o2).
Proof.
  repeat split.
  - unfold Karaoke.set, Karaoke._payload.
    rewrite !(dict_get_default_update _ o1 o2) by assumption. reflexivity.
  - unfold Timescale.set, Timescale._payload. f_equal.
    now apply dict_update_update.
  - unfold Tremolo.set, Tremolo._payload. f_equal.
    now apply dict_update_update.
  - unfold Vibrato.set, Vibrato._payload. f_equal.
    now apply dict_update_update.
  - unfold Rotation.set, Rotation._payload.
    rewrite !(dict_get_default_update _ o1 o2) by assumption. reflexivity.
  - unfold Distortion.set, Distortion._payload.
    rewrite !(dict_get_default_update _ o1 o2) by assumption. reflexivity.
  - unfold ChannelMix.set, ChannelMix._payload.
    rewrite !(dict_get_default_update _ o1 o2) by assumption. reflexivity.
  - unfold LowPass.set, LowPass._payload. f_equal.
    now apply dict_update_update.
Qed.

(** X1 at a stored pitch, then [speed=2.0, pitch=1.5], then [pitch=None]. *)
Lemma set_twice_is_set_of_update_witness :
  let prior : UnitPayload := [("pitch", Some 1%float)] in
  let o1 : UnitOptions := [("speed", Some 2%float); ("pitch", Some 1.5%float)] in
  let o2 : UnitOptions := [("pitch", None)] in
  NoDup (dict_keys o1) /\ NoDup (dict_keys o2) /\
  Timescale.set (Timescale.set (Timescale.mk prior) o1) o2
    = Timescale.mk [("pitch", None); ("speed", Some 2%float)].
Proof.
  intros prior o1 o2.
  assert (Hkw1 : NoDup (dict_keys o1)).
  { repeat (constructor; [simpl; intuition discriminate|]). constructor. }
  assert (Hkw2 : NoDup (dict_keys o2)).
  { repeat (constructor; [simpl; intuition discriminate|]). constructor. }
  split; [exact Hkw1|]. split; [exact Hkw2|].
  destruct (set_twice_is_set_of_update prior o1 o2 Hkw1 Hkw2)
    as (_ & Hts & _).
  rewrite Hts. reflexivity.
Defined.

(** X2.  For each of the eight plain filters, a call of [set] repeated with
    the same keyword arguments changes nothing. *)
Theorem set_again_changes_nothing
    (prior : UnitPayload) (options : UnitOptions)
    (Hkw : NoDup (dict_keys options)) :
  Karaoke.set (Karaoke.set (Karaoke.mk prior) options) options
    = Karaoke.set (Karaoke.mk prior) options
  /\ Timescale.set (Timescale.set (Timescale.mk prior) options) options
    = Timescale.set (Timescale.mk prior) options
  /\ Tremolo.set (Tremolo.set (Tremolo.mk prior) options) options
    = Tremolo.set (Tremolo.mk prior) options
  /\ Vibrato.set (Vibrato.set (Vibrato.mk prior) options) options
    = Vibrato.set (Vibrato.mk prior) options
  /\ Rotation.set (Rotation.set (Rotation.mk prior) options) options
    = Rotation.set (Rotation.mk prior) options
  /\ Distortion.set (Distortion.set (Distortion.mk prior) options) options
    = Distortion.set (Distortion.mk prior) options
  /\ ChannelMix.set (ChannelMix.set (ChannelMix.mk prior) options) options
    = ChannelMix.set (ChannelMix.mk prior) options
  /\ LowPass.set (LowPass.set (LowPass.mk prior) options) options
    = LowPass.set (LowPass.mk prior) options.
Proof.
  assert (Hupd : dict_update (dict_update prior options) options
                 = dict_update prior options).
  { rewrite dict_update_update by assumption. now rewrite dict_update_self. }
  repeat split.
  - unfold Karaoke.set, Karaoke._payload.
    change (dict_get_default "level" (_ :: _) None)
      with (dict_get_default "level" options (dict_get_default "level" prior None)).
    change (dict_get_default "monoLevel" (_ :: _) None)
      with (dict_get_default "mono_level" options (dict_get_default "monoLevel" prior None)).
    change (dict_get_default "filterBand" (_ :: _) None)
      with (dict_get_default "filter_band" options (dict_get_default "filterBand" prior None)).
    change (dict_get_default "filterWidth" (_ :: _) None)
      with (dict_get_default "filter_width" options (dict_get_default "filterWidth" prior None)).
    now rewrite !dict_get_default_twice.
  - unfold Timescale.set, Timescale._payload. now rewrite Hupd.
  - unfold Tremolo.set, Tremolo._payload. now rewrite Hupd.
  - unfold Vibrato.set, Vibrato._payload. now rewrite Hupd.
  - unfold Rotation.set, Rotation._payload.
    change (dict_get_default "rotationHz" (_ :: _) None)
      with (dict_get_default "rotation_hz" options (dict_get_default "rotationHz" prior None)).
    now rewrite !dict_get_default_twice.
  - unfold Distortion.set, Distortion._payload.
    change (dict_get_default "sinOffset" (_ :: _) None)
      with (dict_get_default "sin_offset" options (dict_get_default "sinOffset" prior None)).
    change (dict_get_default "sinScale" (_ :: _) None)
      with (dict_get_default "sin_scale" options (dict_get_default "sinScale" prior None)).
    change (dict_get_default "cosOffset" (_ :: _) None)
      with (dict_get_default "cos_offset" options (dict_get_default "cosOffset" prior None)).
    change (dict_get_default "cosScale" (_ :: _) None)
      with (dict_get_default "cos_scale" options (dict_get_default "cosScale" prior None)).
    change (dict_get_default "tanOffset" (_ :: _) None)
      with (dict_get_default "tan_offset" options (dict_get_default "tanOffset" prior None)).
    change (dict_get_default "tanScale" (_ :: _) None)
      with (dict_get_default "tan_scale" options (dict_get_default "tanScale" prior None)).
    change (dict_get_default "offset" (_ :: _) None)
      with (dict_get_default "offset" options (dict_get_default "offset" prior None)).
    change (dict_get_default "scale" (_ :: _) None)
      with (dict_get_default "scale" options (dict_get_default "scale" prior None)).
    now rewrite !dict_get_default_twice.
  - unfold ChannelMix.set, ChannelMix._payload.
    change (dict_get_default "leftToLeft" (_ :: _) None)
      with (dict_get_default "left_to_left" options (dict_get_default "leftToLeft" prior None)).
    change (dict_get_default "leftToRight" (_ :: _) None)
      with (dict_get_default "left_to_right" options (dict_get_default "leftToRight" prior None)).
    change (dict_get_default "rightToLeft" (_ :: _) None)
      with (dict_get_default "right_to_left" options (dict_get_default "rightToLeft" prior None)).
    change (dict_get_default "rightToRight" (_ :: _) None)
      with (dict_get_default "right_to_right" options (dict_get_default "rightToRight" prior None)).
    now rewrite !dict_get_default_twice.
  - unfold LowPass.set, LowPass._payload. now rewrite Hupd.
Qed.

(** X2 at a Karaoke filter with a stored level and the argument
    [mono_level=0.5]. *)
Lemma set_again_changes_nothing_witness :
  let prior : UnitPayload := [("level", Some 1%float)] in
  let options : UnitOptions := [("mono_level", Some 0.5%float)] in
  NoDup (dict_keys options) /\
  Karaoke.set (Karaoke.set (Karaoke.mk prior) options) options
    = Karaoke.mk [ ("level", Some 1%float); ("monoLevel", Some 0.5%float);
                   ("filterBand", None); ("filterWidth", None) ].
Proof.
  intros prior options.
  assert (Hkw : NoDup (dict_keys options)).
  { repeat (constructor; [simpl; intuition discriminate|]). constructor. }
  split; [exact Hkw|].
  rewrite (proj1 (set_again_changes_nothing prior options Hkw)). reflexivity.
Defined.

(** ** More on the band table *)

Lemma find_band_perm (b : Z) (l l' : list EqualizerPayload) :
  Permutation l l' -> NoDup (map band l) ->
  find (fun eq => band eq =? b) l = find (fun eq => band eq =? b) l'.
Proof.
  induction 1 as [|x l l' Hperm IH|x y l|l l' l'' H1 IH1 H2 IH2];
    simpl; intros Hnd.
  - reflexivity.
  - inversion Hnd; subst. destruct (band x =? b); auto.
  - inversion Hnd as [|? ? Hnot _]; subst.
    destruct (Z.eqb_spec (band y) b) as [Hy|Hy],
             (Z.eqb_spec (band x) b) as [Hx|Hx]; try reflexivity.
    exfalso. apply Hnot. left. congruence.
  - rewrite IH1 by assumption. apply IH2.
    apply (Permutation_NoDup (Permutation_map band H1)), Hnd.
Qed.

Lemma Permutation_filter_in_range (l l' : list EqualizerPayload) :
  Permutation l l' -> Permutation (filter in_range l) (filter in_range l').
Proof.
  induction 1 as [|x l l' Hperm IH|x y l|l l' l'' H1 IH1 H2 IH2]; simpl.
  - constructor.
  - destruct (in_range x); [now constructor | assumption].
  - destruct (in_range x), (in_range y);
      first [apply perm_swap | apply Permutation_refl].
  - now transitivity (filter in_range l').
Qed.

(** Two tables of the right shape with the same entry in every slot are
    the same table. *)
Lemma table_ext (tb1 tb2 : Equalizer.table) :
  table_ok tb1 -> table_ok tb2 ->
  (forall b, 0 <= b <= 14 -> dict_get b tb1 = dict_get b tb2) ->
  tb1 = tb2.
Proof.
  intros [Hk1 _] [Hk2 _] Hget. apply dict_ext.
  - now rewrite Hk1, Hk2.
  - rewrite Hk1. apply NoDup_range15.
  - intros k Hin. apply Hget, in_range15. now rewrite <- Hk1.
Qed.

(** X3.  The values of a band table, handed back to the constructor or to
    [set], give the same table again: what [payload] shows of an Equalizer
    is enough to rebuild it. *)
Theorem equalizer_rebuilt_from_payload
    (e self : Equalizer.t) (Hok : table_ok (Equalizer.payload e)) :
  Equalizer.init (Some (dict_values (Equalizer.payload e))) = e
  /\ Equalizer.set self [("bands", Some (dict_values (Equalizer.payload e)))] = e.
Proof.
  destruct e as [tb]. simpl in Hok. split.
  - now apply init_own_values.
  - unfold Equalizer.set. simpl. now rewrite _set_values.
Qed.

(** X3 at the table that [set] builds from two bands. *)
Lemma equalizer_rebuilt_from_payload_witness :
  let e := Equalizer.set (Equalizer.init None)
             [("bands", Some [ {| band := 7; gain := 0.5%float |};
                               {| band := 1; gain := (-0.25)%float |} ])] in
  table_ok (Equalizer.payload e) /\
  Equalizer.init (Some (dict_values (Equalizer.payload e))) = e.
Proof.
  intros e.
  assert (Hok : table_ok (Equalizer.payload e)) by apply table_ok_set.
  split; [exact Hok|].
  exact (proj1 (equalizer_rebuilt_from_payload e (Equalizer.init None) Hok)).
Defined.

(** X4.  A list that names the bands [0..14] once each and in order is
    stored as it is: the constructor and [set] put entry [n] in slot [n], and
    the values of the table are the list. *)
Theorem equalizer_full_list_stored
    (payload : list EqualizerPayload) (self : Equalizer.t)
    (Hbands : map band payload = range 15) :
  Equalizer._set payload = map (fun eq => (band eq, eq)) payload
  /\ dict_values (Equalizer.payload (Equalizer.init (Some payload))) = payload
  /\ dict_values
       (Equalizer.payload (Equalizer.set self [("bands", Some payload)]))
     = payload.
Proof.
  set (tb := map (fun eq => (band eq, eq)) payload).
  assert (Hvalues : dict_values tb = payload).
  { unfold tb, dict_values. rewrite map_map. simpl. apply map_id. }
  assert (Hok : table_ok tb).
  { split.
    - unfold tb, dict_keys. rewrite map_map. exact Hbands.
    - unfold tb. apply Forall_map, Forall_forall. reflexivity. }
  assert (Hset : Equalizer._set payload = tb).
  { rewrite <- Hvalues at 1. now apply _set_values. }
  split; [exact Hset|]. split.
  - rewrite <- Hvalues at 1. rewrite init_own_values by assumption. exact Hvalues.
  - unfold Equalizer.set. simpl. rewrite Hset. exact Hvalues.
Qed.

(** X4 at fifteen entries with the gains of a bass boost. *)
Lemma equalizer_full_list_stored_witness :
  let payload :=
    [ {| band := 0; gain := 0.5%float |}; {| band := 1; gain := 0.25%float |};
      {| band := 2; gain := 0.125%float |}; {| band := 3; gain := 0%float |};
      {| band := 4; gain := 0%float |}; {| band := 5; gain := 0%float |};
      {| band := 6; gain := 0%float |}; {| band := 7; gain := 0%float |};
      {| band := 8; gain := 0%float |}; {| band := 9; gain := 0%float |};
      {| band := 10; gain := 0%float |}; {| band := 11; gain := 0%float |};
      {| band := 12; gain := 0%float |}; {| band := 13; gain := 0%float |};
      {| band := 14; gain := (-0.25)%float |} ] in
  map band payload = range 15 /\
  dict_values
    (Equalizer.payload (Equalizer.set (Equalizer.init None) [("bands", Some payload)]))
  = payload.
Proof.
  intros payload.
  assert (Hbands : map band payload = range 15) by reflexivity.
  split; [exact Hbands|].
  exact (proj2 (proj2 (equalizer_full_list_stored payload (Equalizer.init None) Hbands))).
Defined.

(** X5.  When no two admissible entries of a list name the same band, the
    order of the list does not matter to [_set], hence to the constructor
    and to [set]. *)
Theorem equalizer_order_irrelevant
    (payload payload' : list EqualizerPayload) (self : Equalizer.t)
    (Hperm : Permutation payload payload')
    (Hdistinct : NoDup (map band (filter in_range payload))) :
  Equalizer._set payload = Equalizer._set payload'
  /\ Equalizer.init (Some payload) = Equalizer.init (Some payload')
  /\ Equalizer.set self [("bands", Some payload)]
     = Equalizer.set self [("bands", Some payload')].
Proof.
  assert (Hset : Equalizer._set payload = Equalizer._set payload').
  { unfold Equalizer._set.
    rewrite (fold_set_filter payload), (fold_set_filter payload').
    apply table_ext; try apply table_ok_fold, table_ok_default.
    intros b Hb. rewrite !get_fold_set by assumption.
    unfold last_with_band.
    rewrite (find_band_perm b (rev (filter in_range payload))
               (rev (filter in_range payload'))); [reflexivity| |].
    - rewrite <- !Permutation_rev. now apply Permutation_filter_in_range.
    - apply (Permutation_NoDup
               (Permutation_map band (Permutation_rev (filter in_range payload)))),
        Hdistinct. }
  split; [exact Hset|]. split.
  - unfold Equalizer.init. rewrite Hset.
    now rewrite (Permutation_length Hperm).
  - unfold Equalizer.set. simpl. now rewrite Hset.
Qed.

(** X5 at three entries, one of them out of range, in two orders. *)
Lemma equalizer_order_irrelevant_witness :
  let payload :=
    [ {| band := 3; gain := 0.5%float |}; {| band := 20; gain := 1%float |};
      {| band := 0; gain := 0.25%float |} ] in
  let payload' :=
    [ {| band := 0; gain := 0.25%float |}; {| band := 3; gain := 0.5%float |};
      {| band := 20; gain := 1%float |} ] in
  Permutation payload payload' /\
  NoDup (map band (filter in_range payload)) /\
  Equalizer._set payload = Equalizer._set payload'.
Proof.
  intros payload payload'.
  assert (Hperm : Permutation payload payload').
  { unfold payload, payload'.
    eapply perm_trans; [apply perm_skip, perm_swap | apply perm_swap]. }
  assert (Hdistinct : NoDup (map band (filter in_range payload))).
  { simpl. repeat (constructor; [simpl; intuition discriminate|]). constructor. }
  split; [exact Hperm|]. split; [exact Hdistinct|].
  exact (proj1 (equalizer_order_irrelevant payload payload'
                  (Equalizer.init None) Hperm Hdistinct)).
Defined.

(** ** More on the payload of the aggregate *)

Lemma compact_filter (payload : FilterPayload) :
  NoDup (dict_keys payload) ->
  Filters.compact payload = filter (fun kv => truthy (snd kv)) payload.
Proof.
  intros Hnd. unfold Filters.compact.
  apply (fold_del_filter truthy payload []); [assumption|]. intros k _ [].
Qed.

Lemma filter_twice {A : Type} (f : A -> bool) (l : list A) :
  filter f (filter f l) = filter f l.
Proof.
  induction l as [|x l IH]; simpl; [reflexivity|].
  destruct (f x) eqn:Hx; simpl; [rewrite Hx; f_equal|]; exact IH.
Qed.

(** X6.  The deleting loop of [__call__] has nothing left to delete in its
    own result: run on any dictionary, and then again on what it returned,
    it returns the same; so it does on the payload of an aggregate. *)
Theorem compact_twice (payload : FilterPayload)
    (Hdict : NoDup (dict_keys payload)) :
  Filters.compact (Filters.compact payload) = Filters.compact payload
  /\ forall self : Filters.t,
       Filters.compact (Filters.__call__ self) = Filters.__call__ self.
Proof.
  assert (Hgen : forall p : FilterPayload, NoDup (dict_keys p) ->
                   Filters.compact (Filters.compact p) = Filters.compact p).
  { intros p Hp. rewrite (compact_filter p Hp).
    rewrite compact_filter by now apply NoDup_keys_filter.
    apply filter_twice. }
  split; [now apply Hgen|].
  intros self. unfold Filters.__call__. apply Hgen, NoDup_payload_keys.
Qed.

(** X6 at a payload with a null, an empty mapping and a volume. *)
Lemma compact_twice_witness :
  let payload : FilterPayload :=
    [ ("timescale", WUnit []); ("volume", WFloat 0.5%float); ("karaoke", WNone) ] in
  NoDup (dict_keys payload) /\
  Filters.compact (Filters.compact payload) = [("volume", WFloat 0.5%float)].
Proof.
  intros payload.
  assert (Hdict : NoDup (dict_keys payload)).
  { repeat (constructor; [simpl; intuition discriminate|]). constructor. }
  split; [exact Hdict|].
  rewrite (proj1 (compact_twice payload Hdict)). reflexivity.
Defined.



(** ** Hydration *)

Lemma init_is_create_from (data : FilterPayload) :
  Filters.init (Some data) = Filters._create_from Filters.default data.
Proof. destruct data; reflexivity. Qed.

Lemma obind_Some {A B : Type} (m : option A) (k : A -> option B) (b : B) :
  obind m k = Some b -> exists a, m = Some a /\ k a = Some b.
Proof. destruct m as [a|]; simpl; [|discriminate]. intros Hk. now exists a. Qed.

Ltac obind_inv H :=
  repeat match type of H with
         | obind ?m _ = Some _ =>
             let a := fresh "a" in
             let Hm := fresh "Hget" in
             apply obind_Some in H as (a & Hm & H)
         end.

(** What [_create_from] has read when it returns. *)
Lemma create_from_fields (self self' : Filters.t) (data : FilterPayload) :
  Filters._create_from self data = Some self' ->
  exists bands,
    get_volume "volume" data = Some (Filters._volume self')
    /\ get_bands "equalizer" data = Some bands
    /\ Filters._equalizer self' = Equalizer.init bands
    /\ get_unit "karaoke" data = Some (Karaoke._payload (Filters._karaoke self'))
    /\ get_unit "timescale" data = Some (Timescale._payload (Filters._timescale self'))
    /\ get_unit "tremolo" data = Some (Tremolo._payload (Filters._tremolo self'))
    /\ get_unit "vibrato" data = Some (Vibrato._payload (Filters._vibrato self'))
    /\ get_unit "rotation" data = Some (Rotation._payload (Filters._rotation self'))
    /\ get_unit "distortion" data = Some (Distortion._payload (Filters._distortion self'))
    /\ get_unit "channelMix" data = Some (ChannelMix._payload (Filters._channel_mix self'))
    /\ get_unit "lowPass" data = Some (LowPass._payload (Filters._low_pass self')).
Proof.
  unfold Filters._create_from. intros Hcreate. obind_inv Hcreate.
  injection Hcreate as <-. simpl. eexists. repeat split; eassumption.
Qed.

Lemma get_unit_compacted (key : string) (data : FilterPayload) (d : UnitPayload) :
  get_unit key data = Some d ->
  (if truthy (WUnit d) then Some (WUnit d) else None) =
  match dict_get key data with
  | Some v => if truthy v then Some v else None
  | None => None
  end.
Proof.
  unfold get_unit.
  destruct (dict_get key data) as [[| |l|d']|]; try discriminate;
    intros [= <-]; reflexivity.
Qed.

(** X8.  [Filters(data=...)] reads the ten wire keys and nothing else: two
    payloads that hold the same value, or none, under each of the ten keys
    give the same aggregate, whatever other keys they hold and in whatever
    order; a payload with none of the ten keys gives the fresh aggregate. *)
Theorem hydration_reads_ten_keys
    (self self' : Filters.t) (data data' : FilterPayload)
    (Hsame : forall key, In key payload_keys ->
                         dict_get key data = dict_get key data') :
  Filters.init (Some data) = Filters.init (Some data')
  /\ Filters._create_from self data = Filters._create_from self' data'
  /\ ((forall key, In key payload_keys -> dict_get key data = None) ->
      Filters.init (Some data) = Some Filters.default).
Proof.
  assert (Hgen : forall (s s' : Filters.t) (d d' : FilterPayload),
             (forall key, In key payload_keys -> dict_get key d = dict_get key d') ->
             Filters._create_from s d = Filters._create_from s' d').
  { intros s s' d d' Hd. unfold Filters._create_from, get_volume, get_bands, get_unit.
    rewrite !Hd by (simpl; tauto). reflexivity. }
  split; [|split].
  - rewrite !init_is_create_from. now apply Hgen.
  - now apply Hgen.
  - intros Hnone. rewrite init_is_create_from.
    rewrite (Hgen Filters.default Filters.default data []); [reflexivity|].
    intros key Hkey. now rewrite Hnone.
Qed.

(** X8 at a payload with a key the aggregate does not know, against the same
    payload without it and in another order. *)
Lemma hydration_reads_ten_keys_witness :
  let data : FilterPayload :=
    [ ("pluginFilters", WNone); ("rotation", WUnit [("rotationHz", Some 0.25%float)]);
      ("volume", WFloat 0.5%float) ] in
  let data' : FilterPayload :=
    [ ("volume", WFloat 0.5%float); ("rotation", WUnit [("rotationHz", Some 0.25%float)]) ] in
  (forall key, In key payload_keys -> dict_get key data = dict_get key data') /\
  Filters.init (Some data) = Filters.init (Some data').
Proof.
  intros data data'.
  assert (Hsame : forall key, In key payload_keys ->
                              dict_get key data = dict_get key data').
  { intros key Hkey. simpl in Hkey.
    repeat (destruct Hkey as [<-|Hkey]; [reflexivity|]). contradiction. }
  split; [exact Hsame|].
  exact (proj1 (hydration_reads_ten_keys Filters.default Filters.default
                  data data' Hsame)).
Defined.

(** X9.  A list of bands in a wire payload is taken over only when it has
    fifteen entries: an aggregate built from a payload whose [equalizer] list
    has any other length has all fifteen bands at gain zero. *)
Theorem hydration_drops_short_equalizer
    (data : FilterPayload) (self' : Filters.t) (bands : list EqualizerPayload)
    (Hinit : Filters.init (Some data) = Some self')
    (Hbands : dict_get "equalizer" data = Some (WBands bands))
    (Hlen : List.length bands <> 15%nat) :
  Filters._equalizer self' = Equalizer.mk Equalizer.default.
Proof.
  rewrite init_is_create_from in Hinit.
  apply create_from_fields in Hinit as (b & _ & Hget & Heq & _).
  unfold get_bands in Hget. rewrite Hbands in Hget. injection Hget as <-.
  rewrite Heq. unfold Equalizer.init.
  apply Nat.eqb_neq in Hlen. rewrite Hlen. now rewrite andb_false_r.
Qed.

(** X9 at a payload that carries one band. *)
Lemma hydration_drops_short_equalizer_witness :
  let data : FilterPayload :=
    [ ("equalizer", WBands [ {| band := 0; gain := 0.5%float |} ]) ] in
  exists self',
    Filters.init (Some data) = Some self'
    /\ dict_get "equalizer" data = Some (WBands [ {| band := 0; gain := 0.5%float |} ])
    /\ List.length [ {| band := 0; gain := 0.5%float |} ] <> 15%nat
    /\ Filters._equalizer self' = Equalizer.mk Equalizer.default.
Proof.
  intros data.
  assert (Hlen : List.length [ {| band := 0; gain := 0.5%float |} ] <> 15%nat)
    by discriminate.
  eexists. split; [reflexivity|]. split; [reflexivity|]. split; [exact Hlen|].
  exact (hydration_drops_short_equalizer data _ _ eq_refl eq_refl Hlen).
Defined.

(** X10.  The payload of an aggregate built from a wire payload holds, under
    each of the nine keys other than [equalizer], the value of the wire
    payload when that value is true and nothing otherwise; under [equalizer]
    it always holds fifteen bands, also when the wire payload had none. *)
Theorem call_after_hydration
    (data : FilterPayload) (self' : Filters.t)
    (Hinit : Filters.init (Some data) = Some self') :
  (forall key, In key payload_keys -> key <> "equalizer" ->
     dict_get key (Filters.__call__ self') =
       match dict_get key data with
       | Some v => if truthy v then Some v else None
       | None => None
       end)
  /\ exists bands,
       dict_get "equalizer" (Filters.__call__ self') = Some (WBands bands)
       /\ List.length bands = 15%nat.
Proof.
  rewrite init_is_create_from in Hinit.
  pose proof (table_ok_Filters_init (Some data) self') as Hok.
  rewrite init_is_create_from in Hok. specialize (Hok Hinit).
  apply create_from_fields in Hinit
    as (b & Hvol & _ & _ & Hka & Hts & Htr & Hvi & Hro & Hdi & Hcm & Hlp).
  split.
  - intros key Hkey Hneq. rewrite get_call. simpl in Hkey.
    destruct Hkey as [<-|[<-|Hkey]]; [|congruence|].
    + simpl. unfold get_volume in Hvol.
      destruct (dict_get "volume" data) as [[|x|l|d]|]; try discriminate;
        injection Hvol as <-; reflexivity.
    + repeat (destruct Hkey as [<-|Hkey];
              [simpl; now apply get_unit_compacted|]).
      contradiction.
  - exists (dict_values (Equalizer._payload (Filters._equalizer self'))).
    split; [|now apply table_ok_length].
    rewrite get_call. simpl. now rewrite (table_ok_length _ Hok).
Qed.

(** X10 at a payload with a zero volume and a karaoke mapping. *)
Lemma call_after_hydration_witness :
  let data : FilterPayload :=
    [ ("karaoke", WUnit [("level", Some 1%float)]); ("volume", WFloat 0%float) ] in
  exists self',
    Filters.init (Some data) = Some self'
    /\ dict_get "karaoke" (Filters.__call__ self')
       = Some (WUnit [("level", Some 1%float)])
    /\ dict_get "volume" (Filters.__call__ self') = None.
Proof.
  intros data. eexists. split; [reflexivity|].
  pose proof (proj1 (call_after_hydration data _ eq_refl)) as Hkeys.
  split.
  - rewrite (Hkeys "karaoke") by (simpl; intuition discriminate). reflexivity.
  - rewrite (Hkeys "volume") by (simpl; intuition discriminate). reflexivity.
Defined.

(** ** More on [set_filters] *)

Lemma kwget_absent {A : Type} (proj : optval -> option A) (key : string)
    (filters : FiltersOptions) (dflt : A) :
  dict_get key filters = None -> kwget proj key filters dflt = Some dflt.
Proof. intros Hget. unfold kwget. now rewrite Hget. Qed.

(** Reading a key after two rounds of keyword arguments is reading it from
    the merged arguments. *)
Lemma kwget_update {A : Type} (proj : optval -> option A) (key : string)
    (f1 f2 : FiltersOptions) (d a b : A) :
  NoDup (dict_keys f2) ->
  kwget proj key f1 d = Some a ->
  kwget proj key f2 a = Some b ->
  kwget proj key (dict_update f1 f2) d = Some b.
Proof.
  intros Hnd H1 H2. unfold kwget in *. rewrite dict_get_update by assumption.
  destruct (dict_get key f2); [exact H2|]. congruence.
Qed.

(** What [set_filters] has read when it returns without [reset]. *)
Lemma set_filters_fields (self self' : Filters.t) (filters : FiltersOptions) :
  kwget as_bool "reset" filters false = Some false ->
  Filters.set_filters self filters = Some self' ->
  kwget as_volume "volume" filters (Filters._volume self)
    = Some (Filters._volume self')
  /\ kwget as_equalizer "equalizer" filters (Filters._equalizer self)
    = Some (Filters._equalizer self')
  /\ kwget as_karaoke "karaoke" filters (Filters._karaoke self)
    = Some (Filters._karaoke self')
  /\ kwget as_timescale "timescale" filters (Filters._timescale self)
    = Some (Filters._timescale self')
  /\ kwget as_tremolo "tremolo" filters (Filters._tremolo self)
    = Some (Filters._tremolo self')
  /\ kwget as_vibrato "vibrato" filters (Filters._vibrato self)
    = Some (Filters._vibrato self')
  /\ kwget as_rotation "rotation" filters (Filters._rotation self)
    = Some (Filters._rotation self')
  /\ kwget as_distortion "distortion" filters (Filters._distortion self)
    = Some (Filters._distortion self')
  /\ kwget as_channel_mix "channelMix" filters (Filters._channel_mix self)
    = Some (Filters._channel_mix self')
  /\ kwget as_low_pass "lowPass" filters (Filters._low_pass self)
    = Some (Filters._low_pass self').
Proof.
  intros Hreset Hset. unfold Filters.set_filters in Hset.
  rewrite Hreset in Hset. simpl obind in Hset. obind_inv Hset.
  injection Hset as <-. simpl. repeat split; assumption.
Qed.

Lemma set_filters_from_fields (self self' : Filters.t) (filters : FiltersOptions) :
  kwget as_bool "reset" filters false = Some false ->
  kwget as_volume "volume" filters (Filters._volume self)
    = Some (Filters._volume self') ->
  kwget as_equalizer "equalizer" filters (Filters._equalizer self)
    = Some (Filters._equalizer self') ->
  kwget as_karaoke "karaoke" filters (Filters._karaoke self)
    = Some (Filters._karaoke self') ->
  kwget as_timescale "timescale" filters (Filters._timescale self)
    = Some (Filters._timescale self') ->
  kwget as_tremolo "tremolo" filters (Filters._tremolo self)
    = Some (Filters._tremolo self') ->
  kwget as_vibrato "vibrato" filters (Filters._vibrato self)
    = Some (Filters._vibrato self') ->
  kwget as_rotation "rotation" filters (Filters._rotation self)
    = Some (Filters._rotation self') ->
  kwget as_distortion "distortion" filters (Filters._distortion self)
    = Some (Filters._distortion self') ->
  kwget as_channel_mix "channelMix" filters (Filters._channel_mix self)
    = Some (Filters._channel_mix self') ->
  kwget as_low_pass "lowPass" filters (Filters._low_pass self)
    = Some (Filters._low_pass self') ->
  Filters.set_filters self filters = Some self'.
Proof.
  intros Hreset Hvo Heq Hka Hts Htr Hvi Hro Hdi Hcm Hlp.
  unfold Filters.set_filters.
  rewrite Hreset, Hvo, Heq, Hka, Hts, Htr, Hvi, Hro, Hdi, Hcm, Hlp.
  now destruct self'.
Qed.

(** X11.  Without [reset], two calls of [set_filters] in a row leave the
    aggregate as one call does whose keyword arguments are the first ones
    updated by the second ones. *)
Theorem set_filters_twice
    (self s1 s2 : Filters.t) (f1 f2 : FiltersOptions)
    (Hkw : NoDup (dict_keys f2))
    (Hr1 : kwget as_bool "reset" f1 false = Some false)
    (Hr2 : kwget as_bool "reset" f2 false = Some false)
    (H1 : Filters.set_filters self f1 = Some s1)
    (H2 : Filters.set_filters s1 f2 = Some s2) :
  Filters.set_filters self (dict_update f1 f2) = Some s2.
Proof.
  destruct (set_filters_fields self s1 f1 Hr1 H1)
    as (Hvo & Heq & Hka & Hts & Htr & Hvi & Hro & Hdi & Hcm & Hlp).
  destruct (set_filters_fields s1 s2 f2 Hr2 H2)
    as (Hvo' & Heq' & Hka' & Hts' & Htr' & Hvi' & Hro' & Hdi' & Hcm' & Hlp').
  apply set_filters_from_fields;
    eapply kwget_update; eassumption.
Qed.

(** X11 at a volume and a timescale, then another volume. *)
Lemma set_filters_twice_witness :
  let ts := Timescale.mk [("speed", Some 2%float)] in
  let f1 : FiltersOptions := [("volume", OFloat 0.5%float); ("timescale", OTimescale ts)] in
  let f2 : FiltersOptions := [("volume", OFloat 1%float)] in
  exists s1 s2 : Filters.t,
    NoDup (dict_keys f2)
    /\ kwget as_bool "reset" f1 false = Some false
    /\ kwget as_bool "reset" f2 false = Some false
    /\ Filters.set_filters Filters.default f1 = Some s1
    /\ Filters.set_filters s1 f2 = Some s2
    /\ Filters.set_filters Filters.default (dict_update f1 f2) = Some s2
    /\ Filters._volume s2 = Some 1%float /\ Filters._timescale s2 = ts.
Proof.
  intros ts f1 f2.
  assert (Hkw : NoDup (dict_keys f2)).
  { repeat (constructor; [simpl; intuition discriminate|]). constructor. }
  eexists. eexists.
  split; [exact Hkw|]. split; [reflexivity|]. split; [reflexivity|].
  split; [reflexivity|]. split; [reflexivity|].
  split; [|split; reflexivity].
  exact (set_filters_twice Filters.default _ _ f1 f2 Hkw
           eq_refl eq_refl eq_refl eq_refl).
Defined.

(** X12.  A call of [set_filters] that supplies none of the keys the method
    reads ([reset], [volume], the seven units it reads under their names,
    [channelMix] and [lowPass]) leaves the aggregate as it was. *)
Theorem set_filters_without_known_keys
    (self : Filters.t) (filters : FiltersOptions)
    (Hnone : forall key, In key set_filters_keys -> dict_get key filters = None) :
  Filters.set_filters self filters = Some self.
Proof.
  apply set_filters_from_fields;
    apply kwget_absent, Hnone; simpl; tauto.
Qed.

(** X12 at a call with one keyword that the method does not read. *)
Lemma set_filters_without_known_keys_witness :
  let filters : FiltersOptions := [("loop", OBool true)] in
  (forall key, In key set_filters_keys -> dict_get key filters = None) /\
  Filters.set_filters Filters.default filters = Some Filters.default.
Proof.
  intros filters.
  assert (Hnone : forall key, In key set_filters_keys -> dict_get key filters = None).
  { intros key Hkey. simpl in Hkey.
    repeat (destruct Hkey as [<-|Hkey]; [reflexivity|]). contradiction. }
  split; [exact Hnone|].
  exact (set_filters_without_known_keys Filters.default filters Hnone).
Defined.

(** X13.  With [reset] true, [set_filters] forgets the aggregate it is called
    on: the result is that of [from_filters] with the same keyword arguments,
    and every unit that the arguments do not name is fresh. *)
Theorem set_filters_reset_forgets
    (self : Filters.t) (filters : FiltersOptions)
    (Hreset : kwget as_bool "reset" filters false = Some true) :
  Filters.set_filters self filters = Filters.from_filters filters
  /\ forall self' : Filters.t,
       Filters.set_filters self filters = Some self' ->
       (dict_get "volume" filters = None -> Filters._volume self' = None)
       /\ (dict_get "equalizer" filters = None ->
           Filters._equalizer self' = Equalizer.mk Equalizer.default)
       /\ (dict_get "karaoke" filters = None ->
           Filters._karaoke self' = Karaoke.mk [])
       /\ (dict_get "timescale" filters = None ->
           Filters._timescale self' = Timescale.mk [])
       /\ (dict_get "tremolo" filters = None ->
           Filters._tremolo self' = Tremolo.mk [])
       /\ (dict_get "vibrato" filters = None ->
           Filters._vibrato self' = Vibrato.mk [])
       /\ (dict_get "rotation" filters = None ->
           Filters._rotation self' = Rotation.mk [])
       /\ (dict_get "distortion" filters = None ->
           Filters._distortion self' = Distortion.mk [])
       /\ (dict_get "channel_mix" filters = None ->
           Filters._channel_mix self' = ChannelMix.mk [])
       /\ (dict_get "low_pass" filters = None ->
           Filters._low_pass self' = LowPass.mk []).
Proof.
  unfold Filters.set_filters. rewrite Hreset. simpl obind.
  split; [reflexivity|].
  intros self' Hset. unfold Filters._set_with_reset in Hset. obind_inv Hset.
  injection Hset as <-. simpl.
  repeat split; intros Habsent;
    match goal with
    | Hk : kwget _ ?key filters _ = Some ?x |- ?x = _ =>
        match type of Habsent with
        | dict_get key filters = None =>
            rewrite (kwget_absent _ key filters _ Habsent) in Hk;
            now injection Hk as <-
        end
    end.
Qed.

(** X13 at an aggregate with a volume and a call that resets and supplies a
    rotation. *)
Lemma set_filters_reset_forgets_witness :
  let ro := Rotation.mk [("rotationHz", Some 0.25%float)] in
  let filters : FiltersOptions := [("rotation", ORotation ro); ("reset", OBool true)] in
  kwget as_bool "reset" filters false = Some true /\
  Filters.set_filters (Filters.set_volume Filters.default 2%float) filters
  = Some (Filters.mk None (Equalizer.mk Equalizer.default) (Karaoke.mk [])
            (Timescale.mk []) (Tremolo.mk []) (Vibrato.mk []) ro
            (Distortion.mk []) (ChannelMix.mk []) (LowPass.mk [])).
Proof.
  intros ro filters.
  assert (Hreset : kwget as_bool "reset" filters false = Some true) by reflexivity.
  split; [exact Hreset|].
  rewrite (proj1 (set_filters_reset_forgets
                    (Filters.set_volume Filters.default 2%float) filters Hreset)).
  reflexivity.
Defined.

(** X14.  The band table of an aggregate keeps its shape (the keys [0..14] in
    order, each slot with an entry of its own band) through everything the
    aggregate offers: construction with or without a wire payload, [reset],
    the volume setter, [from_filters] and [set_filters], the last two given
    Equalizers that are themselves results of the constructor, [set] or
    [reset]. *)
Theorem filters_keep_table_shape :
  (forall data self, Filters.init data = Some self ->
     table_ok (Equalizer._payload (Filters._equalizer self)))
  /\ (forall self, table_ok (Equalizer._payload (Filters._equalizer (Filters.reset self))))
  /\ (forall self x,
        table_ok (Equalizer._payload (Filters._equalizer self)) ->
        table_ok (Equalizer._payload (Filters._equalizer (Filters.set_volume self x))))
  /\ (forall self self' filters,
        table_ok (Equalizer._payload (Filters._equalizer self)) ->
        (forall e, dict_get "equalizer" filters = Some (OEqualizer e) ->
                   table_ok (Equalizer._payload e)) ->
        Filters.set_filters self filters = Some self' ->
        table_ok (Equalizer._payload (Filters._equalizer self')))
  /\ (forall self' filters,
        (forall e, dict_get "equalizer" filters = Some (OEqualizer e) ->
                   table_ok (Equalizer._payload e)) ->
        Filters.from_filters filters = Some self' ->
        table_ok (Equalizer._payload (Filters._equalizer self'))).
Proof.
  split; [exact table_ok_Filters_init|].
  split; [exact table_ok_Filters_reset|].
  split; [intros self x Hok; exact Hok|].
  split; [exact table_ok_Filters_set_filters|].
  intros self' filters Hgiven Hfrom.
  unfold Filters.from_filters, Filters._set_with_reset in Hfrom.
  obind_inv Hfrom. injection Hfrom as <-. simpl.
  match goal with
  | Hk : kwget as_equalizer _ _ _ = Some ?e |- table_ok (Equalizer._payload ?e) =>
      unfold kwget in Hk;
      destruct (dict_get "equalizer" filters) as [[]|] eqn:Heq;
      try discriminate; injection Hk as <-
  end.
  - now apply Hgiven.
  - apply table_ok_default.
Qed.

(** X14 at an aggregate built from a wire payload and then given an
    Equalizer made by [set]. *)
Lemma filters_keep_table_shape_witness :
  let e := Equalizer.set (Equalizer.init None)
             [("bands", Some [ {| band := 2; gain := 0.5%float |} ])] in
  exists self self' : Filters.t,
    Filters.init (Some [("volume", WFloat 0.5%float)]) = Some self
    /\ Filters.set_filters self [("equalizer", OEqualizer e)] = Some self'
    /\ table_ok (Equalizer._payload (Filters._equalizer self')).
Proof.
  intros e.
  destruct filters_keep_table_shape as (Hinit & _ & _ & Hset & _).
  eexists. eexists. split; [reflexivity|]. split; [reflexivity|].
  refine (Hset _ _ [("equalizer", OEqualizer e)]
            (Hinit (Some [("volume", WFloat 0.5%float)]) _ eq_refl) _ eq_refl).
  intros e' [= <-]. apply table_ok_set.
Defined.
